(** * OSI label printer (osi_printer.py): command encoder and label composer

    A shallow embedding of [src/osi_printer.py]: the [Np3511d] command
    encoder, the feed decomposition, the label layouts of
    [button_print_callback] and the batch loop of [print_excel].

    Numbers.  The program computes with Python floats.  Every quantity it
    feeds to the printer is a multiple of 1/8 mm of small magnitude, on
    which float arithmetic is exact, so distances are embedded as exact
    rationals ([Q]); [int(x)] is truncation toward zero and [a % b] is the
    floored remainder.

    Buffer.  [escpos.printer.Dummy] keeps a list of byte chunks, one per
    [_raw] call, and [output] joins them.  The chunks written by this
    program are kept byte for byte; what the escpos library writes for
    [text] and [barcode] is kept as one opaque chunk holding the call's
    arguments.  [barcode] runs the library's check of the code first
    ([check=True] is its default) and raises on a code the symbology does
    not allow. *)

From Stdlib Require Import ZArith QArith Qround Lia Lqa List String Ascii Bool.
From Stdlib Require Strings.Byte.
Import ListNotations.

Local Open Scope Q_scope.

(** ** Python numerics *)

Module Py.

(** [int(x)] on a float: truncation toward zero. *)
Definition int (x : Q) : Z := Z.quot (Qnum x) (Zpos (Qden x)).

(** [a % b] on floats, for a positive divisor: the floored remainder. *)
Definition mod_ (a b : Q) : Q := a - b * inject_Z (Qfloor (a / b)).

(** [a < b]. *)
Definition lt (a b : Q) : bool := negb (Qle_bool b a).

(** [round(x)]: to the nearest integer, ties to the even one. *)
Definition round (x : Q) : Z :=
  let f := Qfloor x in
  let r := x - inject_Z f in
  if lt r (1 # 2) then f
  else if lt (1 # 2) r then (f + 1)%Z
  else if Z.even f then f else (f + 1)%Z.

(** [len(s)] and [s[:n]]; a string is the sequence of its characters. *)
Definition len (s : string) : Z := Z.of_nat (String.length s).
Definition prefix (n : nat) (s : string) : string := substring 0 n s.

End Py.

(** ** Outcomes of a statement

    A statement either completes with a value, executes [return] (the
    enclosing callback ends early) or raises. *)

Inductive exn : Type :=
| ValueError       (* bytes([n]) with n outside 0..255 *)
| IndexError       (* value[k] past the end of a row *)
| RecursionError   (* call depth exhausted *)
| BarcodeTypeError (* barcode: a symbology the printer does not have *)
| BarcodeCodeError (* barcode: a code the symbology does not allow *)
| BarcodeSizeError.  (* barcode: height or width out of range *)

Inductive result (A : Type) : Type :=
| Val (a : A)
| Return
| Raise (e : exn).

Arguments Val {A} a.
Arguments Return {A}.
Arguments Raise {A} e.

(** ** The buffer and the print sink *)

Import Stdlib.Init.Byte.

Inductive chunk : Type :=
| Raw (msg : list byte)
| Text (txt : string)
| Barcode (code bc : string) (height width : Z) (pos : string) (align_ct : bool).

Definition buffer := list chunk.

(** [output] is the buffer of the printer object [p] of the running
    callback; [sink] lists, in order, the buffers that [print_buffer] has
    transmitted to the device. *)
Record state : Type := mkState {
  output : buffer;
  sink : list buffer
}.

Definition M (A : Type) : Type := state -> result A * state.

Definition ret {A} (a : A) : M A := fun s => (Val a, s).

Definition bind {A B} (m : M A) (k : A -> M B) : M B :=
  fun s =>
    match m s with
    | (Val a, s') => k a s'
    | (Return, s') => (Return, s')
    | (Raise e, s') => (Raise e, s')
    end.

Definition return_ {A} : M A := fun s => (Return, s).
Definition raise {A} (e : exn) : M A := fun s => (Raise e, s).

Notation "x <- m ;; k" := (bind m (fun x => k))
  (at level 61, m at next level, right associativity).
Notation "m ;; k" := (bind m (fun _ => k))
  (at level 61, right associativity).

(** A [def] whose body may [return] early. *)
Definition def (body : M unit) : M unit :=
  fun s =>
    match body s with
    | (Return, s') => (Val tt, s')
    | r => r
    end.

(** [p = Np3511d()] ... [p = None]: the body runs on a fresh, empty
    printer object; the caller's own printer is untouched. *)
Definition with_new_printer {A} (body : M A) : M A :=
  fun s =>
    let (r, s') := body (mkState [] (sink s)) in
    (r, mkState (output s) (sink s')).

(** ** Constants *)

Definition ESC : list byte := [x1b].
Definition GS : list byte := [x1d].
Definition CUTTER_OFFSET : Q := 9.5.
Definition POST_CUT_ADV : Q := 2.
Definition MARGIN : Q := 4.
Definition AJUSTE : Q := 6.0.

(** Depth left for nested calls when a callback runs (Python's default
    recursion limit). *)
Definition RECURSION_LIMIT : nat := 1000.

(** ** class Np3511d *)

(** [bytes([n])]. *)
Definition bytes1 (n : Z) : M (list byte) :=
  if (n <? 0)%Z then raise ValueError
  else match Byte.of_N (Z.to_N n) with
       | Some b => ret [b]
       | None => raise ValueError
       end.

Definition _raw (msg : list byte) : M unit :=
  fun s => (Val tt, mkState (output s ++ [Raw msg]) (sink s)).

(** Inherited from escpos: [text], [barcode], [clear], [close], [output]. *)
Definition text (txt : string) : M unit :=
  fun s => (Val tt, mkState (output s ++ [Text txt]) (sink s)).

(** The characters of a CODE39 code: digits, capital letters, space and
    [$ % + - . /]. *)
Definition code39_char (c : ascii) : bool :=
  let n := nat_of_ascii c in
  ((48 <=? n) && (n <=? 57) || (65 <=? n) && (n <=? 90)
   || (n =? 32) || (n =? 36) || (n =? 37) || (n =? 43)
   || (n =? 45) || (n =? 46) || (n =? 47))%nat.

(** One character or more, all of them CODE39 characters. *)
Fixpoint code39_run (s : string) : bool :=
  match s with
  | EmptyString => false
  | String c EmptyString => code39_char c
  | String c rest => code39_char c && code39_run rest
  end.

(** A run of CODE39 characters closed by a star. *)
Fixpoint code39_run_star (s : string) : bool :=
  match s with
  | EmptyString => false
  | String c rest =>
      code39_char c
      && match rest with
         | String "*" EmptyString => true
         | _ => code39_run_star rest
         end
  end.

(** The code without one final line feed, if it has one: the pattern's
    [$] also matches just before it. *)
Fixpoint chomp (s : string) : string :=
  match s with
  | EmptyString => EmptyString
  | String c rest =>
      match rest with
      | EmptyString => if Ascii.eqb c (ascii_of_nat 10) then EmptyString else s
      | _ => String c (chomp rest)
      end
  end.

(** The CODE39 pattern: a run of CODE39 characters, or such a run between
    two stars. *)
Definition code39_pattern (code : string) : bool :=
  code39_run code
  || match code with
     | String "*" rest => code39_run_star rest
     | _ => false
     end.

(** The library's check for CODE39: 1 to 255 characters that match the
    pattern. *)
Definition check_code39 (code : string) : bool :=
  (1 <=? String.length code)%nat && (String.length code <=? 255)%nat
  && (code39_pattern code || code39_pattern (chomp code)).

(** [check_barcode(bc, code)]; CODE39 is the one symbology the program
    asks for and the one kept in the table here. *)
Definition check_barcode (bc code : string) : option bool :=
  if String.eqb bc "CODE39" then Some (check_code39 code) else None.

Definition barcode (code bc : string) (height width : Z) (pos : string)
    (align_ct : bool) : M unit :=
  match check_barcode bc code with
  | None => raise BarcodeTypeError
  | Some false => raise BarcodeCodeError
  | Some true =>
      if negb ((1 <=? height) && (height <=? 255))%Z then raise BarcodeSizeError
      else if negb ((2 <=? width) && (width <=? 6))%Z then raise BarcodeSizeError
      else
        fun s =>
          (Val tt,
           mkState (output s ++ [Barcode code bc height width pos align_ct])
             (sink s))
  end.

Definition clear : M unit := fun s => (Val tt, mkState [] (sink s)).
Definition close : M unit := ret tt.
Definition get_output : M buffer := fun s => (Val (output s), s).

Definition set_max_print_speed (speed : Z) : M unit :=
  if (speed =? 200)%Z then _raw (GS ++ [x53] ++ [x00])
  else if (speed =? 150)%Z then _raw (GS ++ [x53] ++ [x01])
  else if (speed =? 125)%Z then _raw (GS ++ [x53] ++ [x02])
  else if (speed =? 100)%Z then _raw (GS ++ [x53] ++ [x03])
  else _raw (GS ++ [x53] ++ [x04]).

Definition set_alignment (alignment : string) : M unit :=
  if String.eqb alignment "RIGHT" then _raw (ESC ++ [x61] ++ [x02])
  else if String.eqb alignment "CENTER" then _raw (ESC ++ [x61] ++ [x01])
  else _raw (ESC ++ [x61] ++ [x00]).

Definition set_print_density (density : Z) : M unit :=
  let density :=
    if (density <? 65)%Z then 65%Z
    else if (density >? 130)%Z then 130%Z
    else density in
  b <- bytes1 density ;;
  _raw (GS ++ [x7e] ++ b).

Definition set_enhanced_print_on : M unit := _raw (ESC ++ [x45] ++ [x01]).
Definition set_enhanced_print_off : M unit := _raw (ESC ++ [x45] ++ [x00]).
Definition set_double_strike_on : M unit := _raw (ESC ++ [x47] ++ [x01]).
Definition set_double_strike_off : M unit := _raw (ESC ++ [x47] ++ [x00]).
Definition set_double_width_and_height : M unit := _raw (ESC ++ [x21] ++ [x38]).
Definition set_normal_width_and_height : M unit := _raw (ESC ++ [x21] ++ [x00]).

Definition set_barcode_width (width : Z) : M unit :=
  if (width =? 4)%Z then _raw (GS ++ [x77] ++ [x04])
  else if (width =? 2)%Z then _raw (GS ++ [x77] ++ [x02])
  else _raw (GS ++ [x77] ++ [x03]).

Definition full_cut : M unit := _raw (ESC ++ [x69]).
Definition reset : M unit := _raw (ESC ++ [x40]).

Definition set_lf_pitch (pitch : Z) : M unit :=
  let pitch :=
    if (pitch <? 0)%Z then 0%Z
    else if (pitch >? 255)%Z then 255%Z
    else pitch in
  b <- bytes1 pitch ;;
  _raw (ESC ++ [x33] ++ b).

(** [while multiplos > 0: body; multiplos -= 1] runs [body]
    [Z.to_nat multiplos] times. *)
Fixpoint while_gt0 (multiplos : nat) (body : M unit) : M unit :=
  match multiplos with
  | O => ret tt
  | S m => body ;; while_gt0 m body
  end.

(** [feed_forward_mm] and [feed_backward_mm] call each other on a negative
    distance; [depth] is the call depth still available. *)
Fixpoint feed_forward_mm (depth : nat) (distance : Q) : M Q :=
  match depth with
  | O => raise RecursionError
  | S depth' =>
      if Py.lt distance 0 then feed_backward_mm depth' (- distance)
      else
        let multiplos := Py.int (distance / 31.875) in
        let resto := Py.mod_ distance 31.875 in
        while_gt0 (Z.to_nat multiplos)
          (b <- bytes1 (Py.int (31.875 * 8)) ;; _raw (ESC ++ [x4a] ++ b)) ;;
        b <- bytes1 (Py.int (resto * 8)) ;;
        _raw (ESC ++ [x4a] ++ b) ;;
        ret distance
  end
with feed_backward_mm (depth : nat) (distance : Q) : M Q :=
  match depth with
  | O => raise RecursionError
  | S depth' =>
      if Py.lt distance 0 then feed_forward_mm depth' (- distance)
      else
        let multiplos := Py.int (distance / 31.875) in
        let resto := Py.mod_ distance 31.875 in
        while_gt0 (Z.to_nat multiplos)
          (b <- bytes1 (Py.int (31.875 * 8)) ;; _raw (ESC ++ [x42] ++ b)) ;;
        b <- bytes1 (Py.int (resto * 8)) ;;
        _raw (ESC ++ [x42] ++ b) ;;
        ret (- distance)
  end.

Definition set_margins (margen_izq ancho_impresion : Z) : M unit :=
  b1 <- bytes1 margen_izq ;;
  b2 <- bytes1 ancho_impresion ;;
  _raw (GS ++ [x57] ++ b1 ++ b2).

(** ** print_buffer *)

(** [IMPRIMIR] is [True]: the buffer is written to the device. *)
Definition print_buffer (buf : buffer) : M unit :=
  fun s => (Val tt, mkState (output s) (sink s ++ [buf])).

(** ** Inputs of a job *)

(** What the callbacks read from the form: the option menus (label size and
    gap already through [int(...)]) and the five entry fields. *)
Record Gui : Type := mkGui {
  optionmenu_label_type : string;
  optionmenu_label_size : Z;
  optionmenu_gap_size : Z;
  entrada_osi : string;
  entrada_claim : string;
  entrada_fru : string;
  entrada_4ta_linea : string;
  entrada_5ta_linea : string
}.

(** [datetime.now()]. *)
Record datetime : Type := mkDatetime {
  year : nat; month : nat; day : nat;
  hour : nat; minute : nat; second : nat
}.

Definition digit (n : nat) : ascii := ascii_of_nat (48 + n mod 10).

Definition digits2 (n : nat) : string :=
  String (digit (n / 10)) (String (digit n) "").

Definition digits4 (n : nat) : string :=
  String (digit (n / 1000)) (String (digit (n / 100)) (digits2 n)).

(** [now.strftime("%d/%m/%Y")]. *)
Definition strftime_dmY (now : datetime) : string :=
  (digits2 (day now) ++ "/" ++ digits2 (month now) ++ "/" ++ digits4 (year now))%string.

Definition TAB : string := String (ascii_of_nat 9) "".
Definition LF : string := String (ascii_of_nat 10) "".

(** ** button_print_callback *)

(** The expression every layout uses for the space between blocks. *)
Definition separacion (alto_etiqueta : Z) (margin : Q) (nro_lineas nro_bloques : Z) : Q :=
  inject_Z
    (Py.int (((inject_Z alto_etiqueta - 2 * margin - 6 * inject_Z nro_lineas)
              / (inject_Z nro_bloques - 1)) * 8)) / 8.

(** Lines 235-276: configuration, backward alignment feed, head position. *)
Definition prologue (gap : Z) : M Q :=
  reset ;;
  set_lf_pitch 0 ;;
  set_double_width_and_height ;;
  set_alignment "LEFT" ;;
  set_max_print_speed 75 ;;
  set_print_density 130 ;;
  set_enhanced_print_on ;;
  set_double_strike_on ;;
  set_margins 6 66 ;;
  feed_backward_mm RECURSION_LIMIT
    (CUTTER_OFFSET - inject_Z gap / 2 - MARGIN + POST_CUT_ADV) ;;
  ret (MARGIN + inject_Z gap / 2).

(** The blocks of a layout, up to the head position before the cut feed. *)
Definition ingreso_equipo_blocks (alto_etiqueta : Z) (nro_osi : string)
    (head_pos : Q) : M Q :=
  let nro_lineas := 5%Z in
  let nro_bloques := 3%Z in
  let separacion := separacion alto_etiqueta MARGIN nro_lineas nro_bloques in
  text (" OSI " ++ nro_osi ++ TAB ++ "   *" ++ nro_osi) ;;
  let head_pos := head_pos + 6 in
  barcode ("*" ++ nro_osi ++ "*") "CODE39" 48 3 "OFF" false ;;
  let head_pos := head_pos + 6 in
  d <- feed_forward_mm RECURSION_LIMIT separacion ;;
  let head_pos := head_pos + d in
  text (" OSI " ++ nro_osi ++ TAB ++ "   *" ++ nro_osi) ;;
  let head_pos := head_pos + 6 in
  barcode ("*" ++ nro_osi ++ "*") "CODE39" 48 3 "OFF" false ;;
  let head_pos := head_pos + 6 in
  d <- feed_forward_mm RECURSION_LIMIT separacion ;;
  let head_pos := head_pos + d in
  text (" OSI " ++ nro_osi ++ TAB ++ "   *" ++ nro_osi) ;;
  let head_pos := head_pos + 6 in
  ret head_pos.

(** [barcode] is called without [width]: the library's default, 3. *)
Definition ingreso_golden_unit_blocks (alto_etiqueta : Z) (nro_osi : string)
    (head_pos : Q) : M Q :=
  let nro_lineas := 5%Z in
  let nro_bloques := 3%Z in
  let separacion := separacion alto_etiqueta MARGIN nro_lineas nro_bloques in
  text ("  GU " ++ nro_osi ++ TAB ++ "   _" ++ nro_osi) ;;
  let head_pos := head_pos + 6 in
  barcode ("*" ++ nro_osi ++ "*") "CODE39" 48 3 "OFF" false ;;
  let head_pos := head_pos + 6 in
  d <- feed_forward_mm RECURSION_LIMIT separacion ;;
  let head_pos := head_pos + d in
  text ("  GU " ++ nro_osi ++ TAB ++ "   _" ++ nro_osi) ;;
  let head_pos := head_pos + 6 in
  barcode ("*" ++ nro_osi ++ "*") "CODE39" 48 3 "OFF" false ;;
  let head_pos := head_pos + 6 in
  d <- feed_forward_mm RECURSION_LIMIT separacion ;;
  let head_pos := head_pos + d in
  text ("  GU " ++ nro_osi ++ TAB ++ "   _" ++ nro_osi) ;;
  let head_pos := head_pos + 6 in
  ret head_pos.

(** Shared by "Salida Parte" and by each row of [print_excel]. *)
Definition salida_parte_blocks (alto_etiqueta : Z)
    (nro_osi nro_claim nro_fru : string) (now : datetime) (head_pos : Q) : M Q :=
  let nro_lineas := 5%Z in
  let nro_bloques := 3%Z in
  let separacion := separacion alto_etiqueta MARGIN nro_lineas nro_bloques in
  let hoy := strftime_dmY now in
  text ("           " ++ hoy ++ LF) ;;
  let head_pos := head_pos + 6 in
  d <- feed_forward_mm RECURSION_LIMIT separacion ;;
  let head_pos := head_pos + d in
  text (" FRU:   " ++ nro_fru ++ LF) ;;
  let head_pos := head_pos + 6 in
  text (" CLAIM: " ++ nro_claim ++ LF) ;;
  let head_pos := head_pos + 6 in
  d <- feed_forward_mm RECURSION_LIMIT separacion ;;
  let head_pos := head_pos + d in
  text (" OSI:   " ++ nro_osi ++ LF) ;;
  let head_pos := head_pos + 6 in
  barcode ("*" ++ nro_osi ++ "*") "CODE39" 48 4 "OFF" false ;;
  let head_pos := head_pos + 6 in
  ret head_pos.

(** [for linea in lineas: ...] of "Libre". *)
Fixpoint libre_loop (separacion : Q) (lineas : list string) (head_pos : Q) : M Q :=
  match lineas with
  | [] => ret head_pos
  | linea :: lineas' =>
      (if (Py.len linea >? 0)%Z then text (linea ++ LF) else text (" " ++ LF)) ;;
      let head_pos := head_pos + 6 in
      d <- feed_forward_mm RECURSION_LIMIT separacion ;;
      let head_pos := head_pos + d in
      libre_loop separacion lineas' head_pos
  end.

Definition libre_blocks (alto_etiqueta : Z) (gui : Gui) (head_pos : Q) : M Q :=
  let nro_lineas := 5%Z in
  let nro_bloques := 5%Z in
  let separacion := separacion alto_etiqueta MARGIN nro_lineas nro_bloques in
  let lineas :=
    [Py.prefix 20 (entrada_osi gui); Py.prefix 20 (entrada_claim gui);
     Py.prefix 20 (entrada_fru gui); Py.prefix 20 (entrada_4ta_linea gui);
     Py.prefix 20 (entrada_5ta_linea gui)] in
  libre_loop separacion lineas head_pos.

(** The feed to the cut point: [head_pos += p.feed_forward_mm(...)], with
    [ajuste] the extra term of the layout ([AJUSTE] or nothing). *)
Definition cut_feed (alto_etiqueta gap : Z) (ajuste : Q) (head_pos : Q) : M Q :=
  d <- feed_forward_mm RECURSION_LIMIT
         (inject_Z alto_etiqueta + inject_Z gap - head_pos + CUTTER_OFFSET + ajuste) ;;
  ret (head_pos + d).

(** The identifier check of the two intake layouts. *)
Definition check_osi (nro_osi : string) : M unit :=
  if negb (Py.len nro_osi =? 6)%Z then clear ;; close ;; return_
  else ret tt.

(** [match tipo_etiqueta: ...]: the head position after the cut feed, or
    the position left by the prologue when no case matches. *)
Definition match_tipo_etiqueta (gui : Gui) (now : datetime)
    (alto_etiqueta gap : Z) (head_pos : Q) : M Q :=
  let tipo_etiqueta := optionmenu_label_type gui in
  if String.eqb tipo_etiqueta "Ingreso Equipo" then
    let nro_osi := entrada_osi gui in
    check_osi nro_osi ;;
    head_pos <- ingreso_equipo_blocks alto_etiqueta nro_osi head_pos ;;
    cut_feed alto_etiqueta gap AJUSTE head_pos
  else if String.eqb tipo_etiqueta "Ingreso Golden Unit" then
    let nro_osi := entrada_osi gui in
    check_osi nro_osi ;;
    head_pos <- ingreso_golden_unit_blocks alto_etiqueta nro_osi head_pos ;;
    cut_feed alto_etiqueta gap AJUSTE head_pos
  else if String.eqb tipo_etiqueta "Salida Parte" then
    let nro_osi := entrada_osi gui in
    let nro_claim := Py.prefix 14 (entrada_claim gui) in
    let nro_fru := Py.prefix 14 (entrada_fru gui) in
    head_pos <- salida_parte_blocks alto_etiqueta nro_osi nro_claim nro_fru now head_pos ;;
    cut_feed alto_etiqueta gap 0 head_pos
  else if String.eqb tipo_etiqueta "Libre" then
    head_pos <- libre_blocks alto_etiqueta gui head_pos ;;
    cut_feed alto_etiqueta gap 0 head_pos
  else ret head_pos.

(** The body up to [p = None].  The form is an input here: clearing its
    fields afterwards, when the checkbox asks for it, is left out. *)
Definition button_print_callback (gui : Gui) (now : datetime) : M unit :=
  def (with_new_printer (
    let alto_etiqueta := optionmenu_label_size gui in
    let gap := optionmenu_gap_size gui in
    head_pos <- prologue gap ;;
    match_tipo_etiqueta gui now alto_etiqueta gap head_pos ;;
    full_cut ;;
    buf <- get_output ;;
    print_buffer buf ;;
    clear ;;
    close)).

Definition button_forward_callback : M unit :=
  def (with_new_printer (
    feed_forward_mm RECURSION_LIMIT 0.5 ;;
    buf <- get_output ;;
    print_buffer buf ;;
    clear ;;
    close)).

Definition button_backward_callback : M unit :=
  def (with_new_printer (
    feed_backward_mm RECURSION_LIMIT 0.5 ;;
    buf <- get_output ;;
    print_buffer buf ;;
    clear ;;
    close)).

(** ** print_excel *)

(** [value[k]] then [str(...)]: a row is the list of its cells as text. *)
Definition row_get (value : list string) (k : nat) : M string :=
  match nth_error value k with
  | Some c => ret c
  | None => raise IndexError
  end.

(** The body of [for value in df.values: ...] after [i += 1]; it returns
    the loop's [head_pos]. *)
Definition print_excel_row (alto_etiqueta gap : Z) (now : datetime)
    (value : list string) (i : Z) (head_pos : Q) : M Q :=
  nro_osi <- row_get value 0 ;;
  nro_claim <- row_get value 1 ;;
  nro_fru <- row_get value 2 ;;
  (if (i mod 5 =? 0)%Z then button_forward_callback else ret tt) ;;
  head_pos <- salida_parte_blocks alto_etiqueta nro_osi nro_claim nro_fru now head_pos ;;
  head_pos <- cut_feed alto_etiqueta gap 0 head_pos ;;
  full_cut ;;
  buf <- get_output ;;
  print_buffer buf ;;
  ret head_pos.

(** [for value in df.values: ...], with the loop's variables [i] and
    [head_pos]. *)
Fixpoint print_excel_loop (alto_etiqueta gap : Z) (now : datetime)
    (values : list (list string)) (i : Z) (head_pos : Q) : M Q :=
  match values with
  | [] => ret head_pos
  | value :: values' =>
      let i := (i + 1)%Z in
      head_pos <- print_excel_row alto_etiqueta gap now value i head_pos ;;
      print_excel_loop alto_etiqueta gap now values' i head_pos
  end.

(** [df_values] is [df.values] of the spreadsheet the user picked, its
    cells as text; every row of it has the table's number of columns. *)
Definition print_excel (gui : Gui) (now : datetime)
    (df_values : list (list string)) : M unit :=
  def (with_new_printer (
    let alto_etiqueta := optionmenu_label_size gui in
    let gap := optionmenu_gap_size gui in
    head_pos <- prologue gap ;;
    print_excel_loop alto_etiqueta gap now df_values 0 head_pos ;;
    clear ;;
    close)).

(** * Vocabulary of the statements *)

(** ** What a feed appends, stated apart from the code *)

(** The step count a feed command carries in its third byte. *)
Definition step_count (b : byte) : Z := Z.of_N (Byte.to_N b).

Definition byte_of_steps (n : Z) : byte :=
  match Byte.of_N (Z.to_N n) with
  | Some b => b
  | None => x00
  end.

(** A feed of [d >= 0] mm with opcode [op]: the full-step commands, then the
    remainder command. *)
Definition feed_chunks (op : byte) (d : Q) : buffer :=
  repeat (Raw [x1b; op; xff]) (Z.to_nat (Qfloor (d / 31.875)))
  ++ [Raw [x1b; op; byte_of_steps (Qfloor (Py.mod_ d 31.875 * 8))]].

(** A feed of a signed distance, [fwd] being the opcode of the direction
    asked for and [bwd] the opposite one. *)
Definition signed_feed (fwd bwd : byte) (d : Q) : buffer :=
  if Py.lt d 0 then feed_chunks bwd (- d) else feed_chunks fwd d.

Definition emit (s : state) (cs : buffer) : state :=
  mkState (output s ++ cs) (sink s).

(** The feed decomposition, for a rounding [rnd] of the remainder: full
    steps, then one remainder command of [rnd (8 * (d mod 31.875))] steps;
    the functions return [d] and [- d]. *)
Definition feed_spec (rnd : Q -> Z) (d : Q) : Prop :=
  forall s : state,
  exists b : byte,
    step_count b = rnd (8 * Py.mod_ d 31.875) /\
    feed_forward_mm RECURSION_LIMIT d s =
      (Val d,
       emit s (repeat (Raw [x1b; x4a; xff]) (Z.to_nat (Qfloor (d / 31.875)))
               ++ [Raw [x1b; x4a; b]])) /\
    feed_backward_mm RECURSION_LIMIT d s =
      (Val (- d),
       emit s (repeat (Raw [x1b; x42; xff]) (Z.to_nat (Qfloor (d / 31.875)))
               ++ [Raw [x1b; x42; b]])).

(** The spacing in the spec's words: the quotient scaled by 8, rounded down,
    over 8. *)
Definition spacing_floor (H : Z) (M : Q) (L B : Z) : Q :=
  inject_Z
    (Qfloor (((inject_Z H - 2 * M - 6 * inject_Z L) / (inject_Z B - 1)) * 8)) / 8.

(** ** What the layouts emit *)

Definition fwd (d : Q) : buffer := signed_feed x4a x42 d.
Definition bwd (d : Q) : buffer := signed_feed x42 x4a d.

(** The nine configuration commands every job starts with. *)
Definition config_chunks : buffer :=
  [Raw [x1b; x40]; Raw [x1b; x33; x00]; Raw [x1b; x21; x38];
   Raw [x1b; x61; x00]; Raw [x1d; x53; x04]; Raw [x1d; x7e; x82];
   Raw [x1b; x45; x01]; Raw [x1b; x47; x01]; Raw [x1d; x57; x06; x42]].

Definition align_distance (gap : Z) : Q :=
  CUTTER_OFFSET - inject_Z gap / 2 - MARGIN + POST_CUT_ADV.

Definition sep3 (alto : Z) : Q := separacion alto MARGIN 5 3.
Definition sep5 (alto : Z) : Q := separacion alto MARGIN 5 5.

Definition equipo_text (nro_osi : string) : chunk :=
  Text (" OSI " ++ nro_osi ++ TAB ++ "   *" ++ nro_osi).
Definition golden_text (nro_osi : string) : chunk :=
  Text ("  GU " ++ nro_osi ++ TAB ++ "   _" ++ nro_osi).
Definition osi_barcode (nro_osi : string) (width : Z) : chunk :=
  Barcode ("*" ++ nro_osi ++ "*") "CODE39" 48 width "OFF" false.

Definition salida_chunks (alto : Z) (osi claim fru : string) (now : datetime) : buffer :=
  [Text ("           " ++ strftime_dmY now ++ LF)] ++ fwd (sep3 alto)
  ++ [Text (" FRU:   " ++ fru ++ LF); Text (" CLAIM: " ++ claim ++ LF)]
  ++ fwd (sep3 alto)
  ++ [Text (" OSI:   " ++ osi ++ LF); osi_barcode osi 4].

(** What one pass of the "Libre" loop prints for a line. *)
Definition libre_text (linea : string) : chunk :=
  if (Py.len linea >? 0)%Z then Text (linea ++ LF) else Text (" " ++ LF).

Definition libre_head_pos (sep : Q) (lineas : list string) (hp : Q) : Q :=
  fold_left (fun hp _ => hp + 6 + sep) lineas hp.

Inductive layout : Type :=
| IngresoEquipo
| IngresoGoldenUnit
| SalidaParte
| Libre.

Definition tipo_of (l : layout) : string :=
  match l with
  | IngresoEquipo => "Ingreso Equipo"
  | IngresoGoldenUnit => "Ingreso Golden Unit"
  | SalidaParte => "Salida Parte"
  | Libre => "Libre"
  end.

(** The extra term of the cut feed. *)
Definition ajuste_of (l : layout) : Q :=
  match l with
  | IngresoEquipo | IngresoGoldenUnit => AJUSTE
  | SalidaParte | Libre => 0
  end.

(** The identifier, put between stars as the layouts do, is a code the
    library accepts. *)
Definition barcode_ok (nro_osi : string) : bool :=
  check_code39 ("*" ++ nro_osi ++ "*").

(** The identifier check passes. *)
Definition validated (l : layout) (gui : Gui) : Prop :=
  match l with
  | IngresoEquipo | IngresoGoldenUnit => Py.len (entrada_osi gui) = 6%Z
  | SalidaParte | Libre => True
  end.

(** The layout prints no barcode, or the identifier makes one. *)
Definition encodable (l : layout) (gui : Gui) : Prop :=
  match l with
  | Libre => True
  | IngresoEquipo | IngresoGoldenUnit | SalidaParte =>
      barcode_ok (entrada_osi gui) = true
  end.

(** The code a layout runs between the prologue and the cut feed. *)
Definition blocks_of (l : layout) (gui : Gui) (now : datetime) (hp : Q) : M Q :=
  let alto := optionmenu_label_size gui in
  match l with
  | IngresoEquipo => ingreso_equipo_blocks alto (entrada_osi gui) hp
  | IngresoGoldenUnit => ingreso_golden_unit_blocks alto (entrada_osi gui) hp
  | SalidaParte =>
      salida_parte_blocks alto (entrada_osi gui)
        (Py.prefix 14 (entrada_claim gui)) (Py.prefix 14 (entrada_fru gui)) now hp
  | Libre => libre_blocks alto gui hp
  end.

Definition libre_lineas (gui : Gui) : list string :=
  [Py.prefix 20 (entrada_osi gui); Py.prefix 20 (entrada_claim gui);
   Py.prefix 20 (entrada_fru gui); Py.prefix 20 (entrada_4ta_linea gui);
   Py.prefix 20 (entrada_5ta_linea gui)].

(** What the blocks emit, and where they leave the head. *)
Definition chunks_of (l : layout) (gui : Gui) (now : datetime) : buffer :=
  let alto := optionmenu_label_size gui in
  let osi := entrada_osi gui in
  match l with
  | IngresoEquipo =>
      [equipo_text osi; osi_barcode osi 3] ++ fwd (sep3 alto)
      ++ [equipo_text osi; osi_barcode osi 3] ++ fwd (sep3 alto)
      ++ [equipo_text osi]
  | IngresoGoldenUnit =>
      [golden_text osi; osi_barcode osi 3] ++ fwd (sep3 alto)
      ++ [golden_text osi; osi_barcode osi 3] ++ fwd (sep3 alto)
      ++ [golden_text osi]
  | SalidaParte =>
      salida_chunks alto osi (Py.prefix 14 (entrada_claim gui))
        (Py.prefix 14 (entrada_fru gui)) now
  | Libre =>
      flat_map (fun linea => libre_text linea :: fwd (sep5 alto)) (libre_lineas gui)
  end.

Definition head_pos_of (l : layout) (gui : Gui) (hp : Q) : Q :=
  let alto := optionmenu_label_size gui in
  match l with
  | IngresoEquipo | IngresoGoldenUnit =>
      hp + 6 + 6 + sep3 alto + 6 + 6 + sep3 alto + 6
  | SalidaParte => hp + 6 + sep3 alto + 6 + 6 + sep3 alto + 6 + 6
  | Libre => libre_head_pos (sep5 alto) (libre_lineas gui) hp
  end.

Definition cut_distance (l : layout) (gui : Gui) (hp0 : Q) : Q :=
  inject_Z (optionmenu_label_size gui) + inject_Z (optionmenu_gap_size gui)
  - hp0 + CUTTER_OFFSET + ajuste_of l.

(** The buffer of a finished label. *)
Definition label_buffer (l : layout) (gui : Gui) (now : datetime) : buffer :=
  let gap := optionmenu_gap_size gui in
  config_chunks ++ bwd (align_distance gap) ++ chunks_of l gui now
  ++ fwd (cut_distance l gui (head_pos_of l gui (MARGIN + inject_Z gap / 2)))
  ++ [Raw [x1b; x69]].

(** The state after the optional 0.5 mm nudge that precedes every fifth
    row. *)
Definition nudged (i : Z) (s : state) : state :=
  if (i mod 5 =? 0)%Z then mkState (output s) (sink s ++ [fwd 0.5]) else s.

Definition row_head_pos (alto : Z) (hp : Q) : Q :=
  hp + 6 + sep3 alto + 6 + 6 + sep3 alto + 6 + 6.

Definition row_cut_distance (alto gap : Z) (hp0 : Q) : Q :=
  inject_Z alto + inject_Z gap - hp0 + CUTTER_OFFSET + 0.

(** ** Concrete jobs *)

Definition gui_equipo : Gui :=
  mkGui "Ingreso Equipo" 50 5 "123456" "" "" "" "".
Definition gui_equipo_corto : Gui :=
  mkGui "Ingreso Equipo" 50 5 "12345" "" "" "" "".
Definition gui_salida : Gui :=
  mkGui "Salida Parte" 50 5 "123456" "CLAIM1" "FRU1" "" "".
Definition gui_libre : Gui :=
  mkGui "Libre" 50 5 "a" "b" "c" "d" "e".
Definition gui_excel : Gui :=
  mkGui "Excel" 50 5 "" "" "" "" "".
Definition hoy_14 : datetime := mkDatetime 2024 12 14 10 30 0.
Definition hoy_15 : datetime := mkDatetime 2024 12 15 10 30 0.
Definition inicio : state := mkState [] [].

Definition fila_1 : list string := ["111111"; "C1"; "F1"]%string.
Definition fila_2 : list string := ["222222"; "C2"; "F2"]%string.

Definition is_raw (c : chunk) : bool :=
  match c with Raw _ => true | _ => false end.
Definition is_text (c : chunk) : bool :=
  match c with Text _ => true | _ => false end.
Definition is_barcode (c : chunk) : bool :=
  match c with Barcode _ _ _ _ _ _ => true | _ => false end.

(** The text and barcode emissions of a buffer, in order. *)
Definition label_content (b : buffer) : buffer :=
  filter (fun c => negb (is_raw c)) b.
Definition count_text (b : buffer) : nat := List.length (filter is_text b).
Definition count_barcode (b : buffer) : nat := List.length (filter is_barcode b).

(** Forward feed commands ([ESC J n]) of a buffer. *)
Definition is_feed_forward (c : chunk) : bool :=
  match c with
  | Raw [x1b; x4a; _] => true
  | _ => false
  end.
Definition count_feed_forward (b : buffer) : nat :=
  List.length (filter is_feed_forward b).

(** ** Paper motion *)

(** The signed step count of a chunk: forward feeds ([ESC J n]) count up,
    backward feeds ([ESC B n]) count down, everything else is no motion. *)
Definition feed_steps (c : chunk) : Z :=
  match c with
  | Raw [esc; op; b] =>
      if Byte.eqb esc x1b then
        if Byte.eqb op x4a then step_count b
        else if Byte.eqb op x42 then (- step_count b)%Z
        else 0%Z
      else 0%Z
  | _ => 0%Z
  end.

Definition net_steps (b : buffer) : Z :=
  fold_right (fun c acc => (feed_steps c + acc)%Z) 0%Z b.

(** [bytes([n])] accepts [n]. *)
Definition in_byte_range (n : Z) : bool := ((0 <=? n) && (n <=? 255))%Z.

(** ** Shape of a transmitted buffer *)

(** The full-cut command, [ESC i]. *)
Definition is_cut (c : chunk) : bool :=
  match c with
  | Raw [a; b] => Byte.eqb a x1b && Byte.eqb b x69
  | _ => false
  end.
Definition count_cut (b : buffer) : nat := List.length (filter is_cut b).

(** A command of three bytes, as every feed command is. *)
Definition is_raw3 (c : chunk) : bool :=
  match c with
  | Raw [_; _; _] => true
  | _ => false
  end.

(** What a job with no matching layout transmits. *)
Definition blank_buffer (gap : Z) : buffer :=
  config_chunks ++ bwd (align_distance gap) ++ [Raw [x1b; x69]].

(** The label type is one of the four the print button knows. *)
Definition known_tipo (tipo : string) : bool :=
  String.eqb tipo "Ingreso Equipo" || String.eqb tipo "Ingreso Golden Unit"
  || String.eqb tipo "Salida Parte" || String.eqb tipo "Libre".

(** The label type is one of the two that check the identifier. *)
Definition intake_tipo (tipo : string) : bool :=
  String.eqb tipo "Ingreso Equipo" || String.eqb tipo "Ingreso Golden Unit".

(** The label type is one of the three whose layout prints a barcode. *)
Definition barcode_tipo (tipo : string) : bool :=
  intake_tipo tipo || String.eqb tipo "Salida Parte".

(** ** Rows of the batch *)

(** A row has the three cells the loop reads. *)
Definition row_ok (value : list string) : bool := (3 <=? List.length value)%nat.

(** A row has its three cells and an identifier that makes a barcode. *)
Definition row_prints (value : list string) : bool :=
  row_ok value && barcode_ok (hd ""%string value).

(** * Verification *)

(** ** Numeric lemmas *)

Lemma Py_lt_true (a b : Q) : Py.lt a b = true <-> a < b.
Proof.
  unfold Py.lt. rewrite negb_true_iff. split; intro H.
  - apply Qnot_le_lt. intro Hle. apply Qle_bool_iff in Hle. congruence.
  - destruct (Qle_bool b a) eqn:E; [|reflexivity].
    apply Qle_bool_iff in E. exfalso. exact (Qlt_not_le _ _ H E).
Qed.

Lemma Py_lt_false (a b : Q) : Py.lt a b = false <-> b <= a.
Proof.
  unfold Py.lt. rewrite negb_false_iff. apply Qle_bool_iff.
Qed.

Lemma Py_int_floor (x : Q) : 0 <= x -> Py.int x = Qfloor x.
Proof.
  destruct x as [n m]. unfold Qle, Py.int, Qfloor. simpl. intro H.
  apply Z.quot_div_nonneg; lia.
Qed.

Lemma Qfloor_nonneg (x : Q) : 0 <= x -> (0 <= Qfloor x)%Z.
Proof.
  intro H. change 0%Z with (Qfloor (inject_Z 0)).
  apply Qfloor_resp_le. exact H.
Qed.

Lemma Qfloor_lt_Z (x : Q) (z : Z) : x < inject_Z z -> (Qfloor x < z)%Z.
Proof.
  intro H. rewrite Zlt_Qlt.
  apply Qle_lt_trans with x; [apply Qfloor_le | exact H].
Qed.

(** The floored remainder by 31.875 lies in [0, 31.875), whatever the
    dividend. *)
Lemma mod_bounds (d : Q) : 0 <= Py.mod_ d 31.875 /\ Py.mod_ d 31.875 < 31.875.
Proof.
  unfold Py.mod_.
  assert (Hd : d == 31.875 * (d / 31.875)) by (field; discriminate).
  pose proof (Qfloor_le (d / 31.875)) as Hlo.
  pose proof (Qlt_floor (d / 31.875)) as Hhi.
  rewrite inject_Z_plus in Hhi.
  set (q := d / 31.875) in *. set (k := inject_Z (Qfloor q)) in *.
  change (inject_Z 1) with 1 in Hhi.
  split; lra.
Qed.

Lemma resto_steps_bounds (d : Q) :
  (0 <= Qfloor (Py.mod_ d 31.875 * 8) <= 254)%Z.
Proof.
  destruct (mod_bounds d) as [Hlo Hhi].
  set (m := Py.mod_ d 31.875) in *. split.
  - apply Qfloor_nonneg. lra.
  - apply Z.lt_succ_r. apply Qfloor_lt_Z. change (inject_Z (Z.succ 254)) with 255. lra.
Qed.

Lemma Qopp_opp_eq (d : Q) : - - d = d.
Proof.
  destruct d as [n m]. unfold Qopp. simpl. now rewrite Z.opp_involutive.
Qed.

(** ** Running the encoder *)

Lemma step_count_byte_of_steps (n : Z) :
  (0 <= n <= 255)%Z -> step_count (byte_of_steps n) = n.
Proof.
  intro H. unfold step_count, byte_of_steps.
  destruct (Byte.of_N (Z.to_N n)) as [b|] eqn:E.
  - apply Byte.to_of_N in E. rewrite E. lia.
  - apply Byte.of_N_None_iff in E. lia.
Qed.

Lemma bytes1_run (n : Z) (s : state) :
  (0 <= n <= 255)%Z -> bytes1 n s = (Val [byte_of_steps n], s).
Proof.
  intro H. unfold bytes1, byte_of_steps.
  destruct (Z.ltb_spec n 0); [lia|].
  destruct (Byte.of_N (Z.to_N n)) as [b|] eqn:E; [reflexivity|].
  apply Byte.of_N_None_iff in E. lia.
Qed.

Lemma bind_run {A B} (m : M A) (k : A -> M B) (s s1 : state) (a : A) r :
  m s = (Val a, s1) -> k a s1 = r -> bind m k s = r.
Proof.
  intros Hm Hk. unfold bind. now rewrite Hm.
Qed.

Lemma emit_emit (s : state) (xs ys : buffer) :
  emit (emit s xs) ys = emit s (xs ++ ys).
Proof.
  unfold emit. simpl. now rewrite app_assoc.
Qed.

Lemma emit_nil (s : state) : emit s [] = s.
Proof.
  destruct s. unfold emit. simpl. now rewrite app_nil_r.
Qed.

Lemma while_gt0_run (n : nat) (body : M unit) (c : chunk) (s : state) :
  (forall s', body s' = (Val tt, emit s' [c])) ->
  while_gt0 n body s = (Val tt, emit s (repeat c n)).
Proof.
  intro Hbody. revert s. induction n as [|n IH]; intro s; simpl.
  - now rewrite emit_nil.
  - eapply bind_run; [apply Hbody|]. rewrite IH, emit_emit. reflexivity.
Qed.

Lemma full_step_run (op : byte) (s : state) :
  (b <- bytes1 (Py.int (31.875 * 8)) ;; _raw (ESC ++ [op] ++ b)) s
  = (Val tt, emit s [Raw [x1b; op; xff]]).
Proof.
  reflexivity.
Qed.

(** The body both feed functions share once the distance is not negative. *)
Lemma feed_body_run (op : byte) (d r : Q) (s : state) :
  0 <= d ->
  (while_gt0 (Z.to_nat (Py.int (d / 31.875)))
     (b <- bytes1 (Py.int (31.875 * 8)) ;; _raw (ESC ++ [op] ++ b)) ;;
   b <- bytes1 (Py.int (Py.mod_ d 31.875 * 8)) ;;
   _raw (ESC ++ [op] ++ b) ;;
   ret r) s
  = (Val r, emit s (feed_chunks op d)).
Proof.
  intro Hd.
  assert (Hq : 0 <= d / 31.875).
  { apply Qle_shift_div_l; [reflexivity | lra]. }
  destruct (mod_bounds d) as [Hlo Hhi].
  rewrite !Py_int_floor by lra.
  pose proof (resto_steps_bounds d) as Hr.
  eapply bind_run; [apply while_gt0_run; intro; apply full_step_run|].
  eapply bind_run; [apply bytes1_run; lia|].
  unfold feed_chunks. rewrite <- emit_emit. reflexivity.
Qed.

Lemma feed_forward_mm_S (depth : nat) (d : Q) :
  feed_forward_mm (S depth) d =
  if Py.lt d 0 then feed_backward_mm depth (- d)
  else
    (while_gt0 (Z.to_nat (Py.int (d / 31.875)))
       (b <- bytes1 (Py.int (31.875 * 8)) ;; _raw (ESC ++ [x4a] ++ b)) ;;
     b <- bytes1 (Py.int (Py.mod_ d 31.875 * 8)) ;;
     _raw (ESC ++ [x4a] ++ b) ;;
     ret d).
Proof.
  reflexivity.
Qed.

Lemma feed_backward_mm_S (depth : nat) (d : Q) :
  feed_backward_mm (S depth) d =
  if Py.lt d 0 then feed_forward_mm depth (- d)
  else
    (while_gt0 (Z.to_nat (Py.int (d / 31.875)))
       (b <- bytes1 (Py.int (31.875 * 8)) ;; _raw (ESC ++ [x42] ++ b)) ;;
     b <- bytes1 (Py.int (Py.mod_ d 31.875 * 8)) ;;
     _raw (ESC ++ [x42] ++ b) ;;
     ret (- d)).
Proof.
  reflexivity.
Qed.

(** With room for one redirect, both feed functions return on every
    distance: the signed request, and the commands of [signed_feed]. *)
Lemma feed_run (n : nat) (d : Q) (s : state) :
  feed_forward_mm (S (S n)) d s = (Val d, emit s (signed_feed x4a x42 d)) /\
  feed_backward_mm (S (S n)) d s = (Val (- d), emit s (signed_feed x42 x4a d)).
Proof.
  unfold signed_feed.
  rewrite (feed_forward_mm_S (S n) d), (feed_backward_mm_S (S n) d).
  destruct (Py.lt d 0) eqn:E.
  - apply Py_lt_true in E.
    assert (Hn : Py.lt (- d) 0 = false) by (apply Py_lt_false; lra).
    rewrite feed_forward_mm_S, feed_backward_mm_S, Hn.
    split.
    + rewrite feed_body_run by lra. now rewrite Qopp_opp_eq.
    + apply feed_body_run. lra.
  - apply Py_lt_false in E. split; apply feed_body_run; exact E.
Qed.

Lemma RECURSION_LIMIT_S : RECURSION_LIMIT = S (S 998).
Proof.
  reflexivity.
Qed.

Lemma feed_forward_mm_run (d : Q) (s : state) :
  feed_forward_mm RECURSION_LIMIT d s = (Val d, emit s (signed_feed x4a x42 d)).
Proof.
  rewrite RECURSION_LIMIT_S. apply feed_run.
Qed.

Lemma feed_backward_mm_run (d : Q) (s : state) :
  feed_backward_mm RECURSION_LIMIT d s = (Val (- d), emit s (signed_feed x42 x4a d)).
Proof.
  rewrite RECURSION_LIMIT_S. apply feed_run.
Qed.

Lemma signed_feed_nonneg (fwd bwd : byte) (d : Q) :
  0 <= d -> signed_feed fwd bwd d = feed_chunks fwd d.
Proof.
  intro H. unfold signed_feed. apply Py_lt_false in H. now rewrite H.
Qed.

(** ** Feed decomposition *)

(** C1 (as amended): for every distance [d >= 0], [feed_forward_mm] appends
    floor(d / 31.875) full-step commands (255 steps each) followed by one
    remainder command whose step count is floor(8 * (d mod 31.875)), the
    remainder being truncated, not rounded to nearest; [feed_backward_mm]
    does the same with the backward opcode; they return [d] and [-d]. *)
Theorem feed_decomposition_floor (d : Q) : 0 <= d -> feed_spec Qfloor d.
Proof.
  intros Hd s.
  exists (byte_of_steps (Qfloor (Py.mod_ d 31.875 * 8))).
  pose proof (resto_steps_bounds d) as Hr.
  split; [|split].
  - rewrite step_count_byte_of_steps by lia.
    apply Qfloor_comp. ring.
  - rewrite feed_forward_mm_run, signed_feed_nonneg by exact Hd. reflexivity.
  - rewrite feed_backward_mm_run, signed_feed_nonneg by exact Hd. reflexivity.
Qed.

Lemma feed_decomposition_floor_witness : 0 <= 40 /\ feed_spec Qfloor 40.
Proof.
  split; [discriminate | apply (feed_decomposition_floor 40); discriminate].
Defined.

(** C1 (as stated, refuted): at d = 3/32 mm the remainder is 0.75 step;
    the command carries 0 steps, where rounding to nearest gives 1. *)
Lemma feed_decomposition_round_fails : ~ feed_spec Py.round (3 # 32).
Proof.
  intro H. destruct (H (mkState [] [])) as [b [Hb [Hf _]]].
  vm_compute in Hf. vm_compute in Hb.
  injection Hf as Hf. subst b. discriminate Hb.
Qed.

(** C10: for every distance, negative ones included, both feed functions
    return with room for a single redirect (call depth 2); a full-step
    command carries int(31.875 * 8) = 255 steps, and the remainder
    int((|d| mod 31.875) * 8) lies in 0..254, so every [bytes([n])] of a
    feed gets a value in 0..255. *)
Theorem feed_total (d : Q) (n : nat) (s : state) :
  let a := if Py.lt d 0 then - d else d in
  let full := Py.int (31.875 * 8) in
  let resto := Py.int (Py.mod_ a 31.875 * 8) in
  full = 255%Z /\ (0 <= resto <= 254)%Z /\
  (0 <= Py.int (Py.mod_ d 31.875 * 8) <= 254)%Z /\
  exists (k : nat) (bf br : byte),
    step_count bf = full /\ step_count br = resto /\
    feed_forward_mm (S (S n)) d s =
      (Val d,
       let op := if Py.lt d 0 then x42 else x4a in
       emit s (repeat (Raw [x1b; op; bf]) k ++ [Raw [x1b; op; br]])) /\
    feed_backward_mm (S (S n)) d s =
      (Val (- d),
       let op := if Py.lt d 0 then x4a else x42 in
       emit s (repeat (Raw [x1b; op; bf]) k ++ [Raw [x1b; op; br]])).
Proof.
  intros a full resto.
  destruct (mod_bounds a) as [Hlo Hhi].
  pose proof (resto_steps_bounds a) as Hr.
  assert (Hres : resto = Qfloor (Py.mod_ a 31.875 * 8)).
  { unfold resto. apply Py_int_floor.
    set (m := Py.mod_ a 31.875) in *. lra. }
  split; [reflexivity|]. split; [lia|]. split.
  { destruct (mod_bounds d) as [Hlo' Hhi'].
    pose proof (resto_steps_bounds d) as Hr'.
    rewrite Py_int_floor; [exact Hr'|].
    set (m := Py.mod_ d 31.875) in *. lra. }
  exists (Z.to_nat (Qfloor (a / 31.875))), xff,
         (byte_of_steps (Qfloor (Py.mod_ a 31.875 * 8))).
  split; [reflexivity|]. split.
  { rewrite Hres. apply step_count_byte_of_steps. lia. }
  destruct (feed_run n d s) as [Hf Hb]. rewrite Hf, Hb.
  unfold signed_feed, a. destruct (Py.lt d 0); split; reflexivity.
Qed.

(** ** Inter-block spacing *)

Lemma Py_int_inject (q : Q) (z : Z) : q == inject_Z z -> Py.int q = z.
Proof.
  destruct q as [n d]. unfold Qeq, Py.int. simpl. intro H.
  replace n with (z * Zpos d)%Z by lia.
  apply Z.quot_mul. discriminate.
Qed.

(** On the program's own constants (margin 4, 5 lines, 3 or 5 blocks) the
    scaled quotient is an integer, 4 (alto - 38) or 2 (alto - 38): [int]
    and floor agree at every integer height. *)
Lemma separacion_layouts (alto : Z) :
  sep3 alto = spacing_floor alto MARGIN 5 3 /\
  sep5 alto = spacing_floor alto MARGIN 5 5.
Proof.
  unfold sep3, sep5, separacion, spacing_floor, MARGIN. split.
  - set (x := _ * 8).
    assert (Hx : x == inject_Z (4 * (alto - 38))).
    { unfold x, Z.sub. rewrite inject_Z_mult, inject_Z_plus.
      change (inject_Z 5) with 5. change (inject_Z 3) with 3.
      change (inject_Z 4) with 4. change (inject_Z (- (38))) with (- (38)).
      field. }
    rewrite (Py_int_inject _ _ Hx), (Qfloor_comp _ _ Hx), Qfloor_Z. reflexivity.
  - set (x := _ * 8).
    assert (Hx : x == inject_Z (2 * (alto - 38))).
    { unfold x, Z.sub. rewrite inject_Z_mult, inject_Z_plus.
      change (inject_Z 5) with 5. change (inject_Z 2) with 2.
      change (inject_Z (- (38))) with (- (38)). field. }
    rewrite (Py_int_inject _ _ Hx), (Qfloor_comp _ _ Hx), Qfloor_Z. reflexivity.
Qed.

Lemma separacion_nonneg_floor (H : Z) (M : Q) (L B : Z) :
  (2 <= B)%Z ->
  0 <= inject_Z H - 2 * M - 6 * inject_Z L ->
  separacion H M L B = spacing_floor H M L B.
Proof.
  intros HB Hnum. unfold separacion, spacing_floor.
  rewrite Py_int_floor; [reflexivity|].
  assert (Hden : 0 < inject_Z B - 1).
  { assert (inject_Z 2 <= inject_Z B) by (rewrite <- Zle_Qle; exact HB).
    change (inject_Z 2) with 2 in *. lra. }
  set (n := inject_Z H - 2 * M - 6 * inject_Z L) in *.
  set (m := inject_Z B - 1) in *.
  assert (0 <= n / m) by (apply Qle_shift_div_l; [exact Hden | lra]).
  set (q := n / m) in *. lra.
Qed.

(** C8: the computed inter-block spacing equals
    floor(((H - 2M - 6L) / (B - 1)) * 8) / 8, the space left after margins
    and lines shared among the B - 1 gaps and rounded down to 1/8 mm: at
    every integer label height H with the program's margin, line count and
    block counts (M = 4, L = 5, B = 3 or 5), and for every H, M, L and
    B >= 2 that leave no negative space. *)
Theorem separacion_floor (H : Z) (M : Q) (L B : Z) :
  (2 <= B)%Z ->
  (M = MARGIN /\ L = 5%Z /\ (B = 3%Z \/ B = 5%Z)) \/
  0 <= inject_Z H - 2 * M - 6 * inject_Z L ->
  separacion H M L B = spacing_floor H M L B.
Proof.
  intros HB [[HM [HL HB']] | Hnum].
  - subst M L. destruct (separacion_layouts H) as [H3 H5].
    destruct HB' as [-> | ->]; [exact H3 | exact H5].
  - apply separacion_nonneg_floor; assumption.
Qed.

Lemma separacion_floor_witness :
  (2 <= 5)%Z /\
  ((MARGIN = MARGIN /\ 5%Z = 5%Z /\ (5%Z = 3%Z \/ 5%Z = 5%Z)) \/
   0 <= inject_Z 49 - 2 * MARGIN - 6 * inject_Z 5) /\
  separacion 49 MARGIN 5 5 = spacing_floor 49 MARGIN 5 5.
Proof.
  split; [lia|].
  split; [left; split; [reflexivity | split; [reflexivity | right; reflexivity]]|].
  apply (separacion_floor 49 MARGIN 5 5); [lia|].
  left. split; [reflexivity | split; [reflexivity | right; reflexivity]].
Defined.

(** ** Running the layouts *)

Lemma text_run (t : string) (s : state) : text t s = (Val tt, emit s [Text t]).
Proof.
  reflexivity.
Qed.

Lemma barcode3_run (osi : string) (s : state) :
  barcode_ok osi = true ->
  barcode ("*" ++ osi ++ "*") "CODE39" 48 3 "OFF" false s
  = (Val tt, emit s [osi_barcode osi 3]).
Proof.
  unfold barcode_ok, barcode, check_barcode. intro H.
  change (String.eqb "CODE39" "CODE39") with true. cbv iota.
  rewrite H. reflexivity.
Qed.

Lemma barcode4_run (osi : string) (s : state) :
  barcode_ok osi = true ->
  barcode ("*" ++ osi ++ "*") "CODE39" 48 4 "OFF" false s
  = (Val tt, emit s [osi_barcode osi 4]).
Proof.
  unfold barcode_ok, barcode, check_barcode. intro H.
  change (String.eqb "CODE39" "CODE39") with true. cbv iota.
  rewrite H. reflexivity.
Qed.

Lemma barcode_raises (osi : string) (width : Z) (s : state) :
  barcode_ok osi = false ->
  barcode ("*" ++ osi ++ "*") "CODE39" 48 width "OFF" false s
  = (Raise BarcodeCodeError, s).
Proof.
  unfold barcode_ok, barcode, check_barcode. intro H.
  change (String.eqb "CODE39" "CODE39") with true. cbv iota.
  rewrite H. reflexivity.
Qed.

Lemma feed_fwd_run (d : Q) (s : state) :
  feed_forward_mm RECURSION_LIMIT d s = (Val d, emit s (fwd d)).
Proof.
  apply feed_forward_mm_run.
Qed.

Lemma feed_bwd_run (d : Q) (s : state) :
  feed_backward_mm RECURSION_LIMIT d s = (Val (- d), emit s (bwd d)).
Proof.
  apply feed_backward_mm_run.
Qed.

Lemma ret_run {A} (a : A) (s : state) : ret a s = (Val a, s).
Proof.
  reflexivity.
Qed.

Create HintDb runs.
#[local] Hint Resolve text_run barcode3_run barcode4_run feed_fwd_run feed_bwd_run : runs.

(** Steps through a sequence of encoder calls, collecting what each one
    emits. *)
Ltac run :=
  repeat (eapply bind_run; [solve [auto with runs] | cbv beta zeta]);
  try rewrite ret_run;
  rewrite ?emit_emit.

Lemma config_run {A} (k : M A) (s : state) :
  (reset ;; set_lf_pitch 0 ;; set_double_width_and_height ;;
   set_alignment "LEFT" ;; set_max_print_speed 75 ;; set_print_density 130 ;;
   set_enhanced_print_on ;; set_double_strike_on ;; set_margins 6 66 ;; k) s
  = k (emit s config_chunks).
Proof.
  unfold bind, emit. simpl. rewrite <- !app_assoc. reflexivity.
Qed.

Lemma prologue_run (gap : Z) (s : state) :
  prologue gap s =
  (Val (MARGIN + inject_Z gap / 2),
   emit s (config_chunks ++ bwd (align_distance gap))).
Proof.
  unfold prologue. rewrite config_run. run. reflexivity.
Qed.

Lemma ingreso_equipo_blocks_run (alto : Z) (osi : string) (hp : Q) (s : state) :
  barcode_ok osi = true ->
  ingreso_equipo_blocks alto osi hp s =
  (Val (hp + 6 + 6 + sep3 alto + 6 + 6 + sep3 alto + 6),
   emit s ([equipo_text osi; osi_barcode osi 3] ++ fwd (sep3 alto)
           ++ [equipo_text osi; osi_barcode osi 3] ++ fwd (sep3 alto)
           ++ [equipo_text osi])).
Proof.
  intro Hok. unfold ingreso_equipo_blocks. run. reflexivity.
Qed.

Lemma ingreso_golden_unit_blocks_run (alto : Z) (osi : string) (hp : Q) (s : state) :
  barcode_ok osi = true ->
  ingreso_golden_unit_blocks alto osi hp s =
  (Val (hp + 6 + 6 + sep3 alto + 6 + 6 + sep3 alto + 6),
   emit s ([golden_text osi; osi_barcode osi 3] ++ fwd (sep3 alto)
           ++ [golden_text osi; osi_barcode osi 3] ++ fwd (sep3 alto)
           ++ [golden_text osi])).
Proof.
  intro Hok. unfold ingreso_golden_unit_blocks. run. reflexivity.
Qed.

Lemma salida_parte_blocks_run (alto : Z) (osi claim fru : string)
    (now : datetime) (hp : Q) (s : state) :
  barcode_ok osi = true ->
  salida_parte_blocks alto osi claim fru now hp s =
  (Val (hp + 6 + sep3 alto + 6 + 6 + sep3 alto + 6 + 6),
   emit s (salida_chunks alto osi claim fru now)).
Proof.
  intro Hok. unfold salida_parte_blocks, salida_chunks. run. reflexivity.
Qed.

(** Every pass of the loop, the last one included, prints its line and then
    feeds by the spacing. *)
Lemma libre_loop_run (sep : Q) (lineas : list string) (hp : Q) (s : state) :
  libre_loop sep lineas hp s =
  (Val (libre_head_pos sep lineas hp),
   emit s (flat_map (fun linea => libre_text linea :: fwd sep) lineas)).
Proof.
  revert hp s. induction lineas as [|linea lineas IH]; intros hp s.
  - simpl. now rewrite emit_nil.
  - cbn [libre_loop flat_map libre_head_pos fold_left].
    eapply bind_run.
    { instantiate (1 := emit s [libre_text linea]). instantiate (1 := tt).
      unfold libre_text. destruct (Py.len linea >? 0)%Z; reflexivity. }
    run. rewrite IH, emit_emit. reflexivity.
Qed.

Lemma cut_feed_run (alto gap : Z) (ajuste hp : Q) (s : state) :
  let d := inject_Z alto + inject_Z gap - hp + CUTTER_OFFSET + ajuste in
  cut_feed alto gap ajuste hp s = (Val (hp + d), emit s (fwd d)).
Proof.
  intro d. unfold cut_feed. run. reflexivity.
Qed.

Lemma get_output_run (s : state) : get_output s = (Val (output s), s).
Proof.
  reflexivity.
Qed.

Lemma print_buffer_run (buf : buffer) (s : state) :
  print_buffer buf s = (Val tt, mkState (output s) (sink s ++ [buf])).
Proof.
  reflexivity.
Qed.

Lemma clear_run (s : state) : clear s = (Val tt, mkState [] (sink s)).
Proof.
  reflexivity.
Qed.

Lemma close_run (s : state) : close s = (Val tt, s).
Proof.
  reflexivity.
Qed.

Lemma full_cut_run (s : state) : full_cut s = (Val tt, emit s [Raw [x1b; x69]]).
Proof.
  reflexivity.
Qed.

#[local] Hint Resolve get_output_run print_buffer_run clear_run close_run
  full_cut_run prologue_run ingreso_equipo_blocks_run
  ingreso_golden_unit_blocks_run salida_parte_blocks_run libre_loop_run
  cut_feed_run : runs.

(** ** The four layouts of the print button *)

Lemma blocks_of_run (l : layout) (gui : Gui) (now : datetime) (hp : Q) (s : state) :
  encodable l gui ->
  blocks_of l gui now hp s = (Val (head_pos_of l gui hp), emit s (chunks_of l gui now)).
Proof.
  intro He.
  destruct l; cbn [blocks_of head_pos_of chunks_of encodable] in *; auto with runs.
  unfold libre_blocks. apply libre_loop_run.
Qed.

Lemma check_osi_pass {A} (osi : string) (k : M A) (s : state) :
  Py.len osi = 6%Z -> (check_osi osi ;; k) s = k s.
Proof.
  intro H. unfold check_osi. rewrite H. reflexivity.
Qed.

(** On a validated layout the dispatch runs the layout's blocks, then the
    cut feed with the layout's extra term. *)
Lemma match_tipo_etiqueta_layout (l : layout) (gui : Gui) (now : datetime)
    (gap : Z) (hp : Q) (s : state) :
  optionmenu_label_type gui = tipo_of l ->
  validated l gui ->
  match_tipo_etiqueta gui now (optionmenu_label_size gui) gap hp s =
  (hp0 <- blocks_of l gui now hp ;;
   cut_feed (optionmenu_label_size gui) gap (ajuste_of l) hp0) s.
Proof.
  intros Ht Hv. unfold match_tipo_etiqueta. rewrite Ht.
  destruct l; cbn [tipo_of String.eqb Ascii.eqb Bool.eqb andb]; cbn [validated] in Hv;
    try (rewrite check_osi_pass by exact Hv); reflexivity.
Qed.

Lemma match_tipo_etiqueta_run (l : layout) (gui : Gui) (now : datetime)
    (hp : Q) (s : state) :
  optionmenu_label_type gui = tipo_of l ->
  validated l gui ->
  encodable l gui ->
  let hp0 := head_pos_of l gui hp in
  match_tipo_etiqueta gui now (optionmenu_label_size gui) (optionmenu_gap_size gui) hp s =
  (Val (hp0 + cut_distance l gui hp0),
   emit s (chunks_of l gui now ++ fwd (cut_distance l gui hp0))).
Proof.
  intros Ht Hv He hp0. rewrite (match_tipo_etiqueta_layout l) by assumption.
  eapply bind_run; [apply blocks_of_run; exact He|].
  rewrite cut_feed_run, emit_emit. reflexivity.
Qed.

(** A job that passes the identifier check and can make its barcodes
    transmits its buffer once and leaves nothing behind. *)
Lemma button_print_callback_run (l : layout) (gui : Gui) (now : datetime) (s : state) :
  optionmenu_label_type gui = tipo_of l ->
  validated l gui ->
  encodable l gui ->
  button_print_callback gui now s =
  (Val tt, mkState (output s) (sink s ++ [label_buffer l gui now])).
Proof.
  intros Ht Hv He. unfold button_print_callback, def, with_new_printer.
  cbv zeta.
  erewrite bind_run;
    [ | apply prologue_run
      | eapply bind_run; [apply (match_tipo_etiqueta_run l); assumption|];
        run; reflexivity ].
  cbn [output sink emit]. unfold label_buffer.
  rewrite <- !app_assoc. reflexivity.
Qed.

Lemma button_forward_callback_run (s : state) :
  button_forward_callback s =
  (Val tt, mkState (output s) (sink s ++ [fwd 0.5])).
Proof.
  unfold button_forward_callback, def, with_new_printer.
  erewrite bind_run; [ | apply feed_fwd_run | run; reflexivity ].
  reflexivity.
Qed.

Lemma nudge_run (i : Z) (s : state) :
  (if (i mod 5 =? 0)%Z then button_forward_callback else ret tt) s
  = (Val tt, nudged i s).
Proof.
  unfold nudged. destruct (i mod 5 =? 0)%Z;
    [apply button_forward_callback_run | reflexivity].
Qed.

(** One row of the batch: the row's commands are appended to the buffer
    the previous rows left, and the whole buffer is transmitted. *)
Lemma print_excel_row_run (alto gap : Z) (now : datetime)
    (osi claim fru : string) (rest : list string) (i : Z) (hp : Q) (s : state) :
  barcode_ok osi = true ->
  let hp0 := row_head_pos alto hp in
  let d := row_cut_distance alto gap hp0 in
  let out := output s ++ salida_chunks alto osi claim fru now ++ fwd d ++ [Raw [x1b; x69]] in
  print_excel_row alto gap now (osi :: claim :: fru :: rest) i hp s =
  (Val (hp0 + d), mkState out (sink (nudged i s) ++ [out])).
Proof.
  intros Hok hp0 d out. unfold print_excel_row.
  cbn [row_get nth_error].
  eapply bind_run; [apply ret_run|].
  eapply bind_run; [apply ret_run|].
  eapply bind_run; [apply ret_run|].
  eapply bind_run; [apply nudge_run|].
  run. unfold emit. cbn [output sink].
  assert (Ho : output (nudged i s) = output s)
    by (unfold nudged; destruct (i mod 5 =? 0)%Z; reflexivity).
  rewrite Ho. reflexivity.
Qed.

(** ** The feed to the cut point *)




(** ** The batch of [print_excel] *)

(** C3 (the code departs from it): height 50, gap 5, two rows.  The first
    row starts at MARGIN + gap/2 = 6.5; the loop never resets [head_pos],
    so the second row starts at 64.5, where the first row's cut feed left
    it. *)
Theorem excel_head_pos_not_reset :
  let s := snd (prologue 5 inicio) in
  let start := MARGIN + inject_Z 5 / 2 in
  fst (prologue 5 inicio) = Val start /\
  exists (hp1 : Q) (s1 : state),
    print_excel_row 50 5 hoy_14 fila_1 1 start s = (Val hp1, s1) /\
    print_excel_loop 50 5 hoy_14 [fila_1; fila_2] 0 start s =
      print_excel_loop 50 5 hoy_14 [fila_2] 1 hp1 s1 /\
    hp1 == 64.5 /\
    ~ hp1 == start.
Proof.
  intros s start. split; [reflexivity|].
  eexists. eexists.
  split; [vm_compute; reflexivity|].
  split; [vm_compute; reflexivity|].
  split; [reflexivity | discriminate].
Qed.

(** C4 (the code departs from it): height 50, gap 5, two rows.  The buffer
    is never cleared between rows: the second transmission repeats the
    whole first one and then adds the second label. *)
Theorem excel_retransmits_first_label :
  exists (b1 extra : buffer),
    print_excel gui_excel hoy_14 [fila_1; fila_2] inicio =
      (Val tt, mkState [] [b1; b1 ++ extra]) /\
    List.length b1 = 19%nat /\ List.length extra = 10%nat.
Proof.
  set (r := print_excel gui_excel hoy_14 [fila_1; fila_2] inicio).
  exists (nth 0 (sink (snd r)) []).
  exists (skipn 19 (nth 1 (sink (snd r)) [])).
  split; [vm_compute; reflexivity|]. split; reflexivity.
Qed.

(** ** Label content *)

Lemma feed_chunks_raw (op : byte) (d : Q) : forallb is_raw (feed_chunks op d) = true.
Proof.
  unfold feed_chunks. rewrite forallb_app. apply andb_true_iff. split; [|reflexivity].
  induction (Z.to_nat (Qfloor (d / 31.875))) as [|n IH]; [reflexivity | exact IH].
Qed.

Lemma signed_feed_raw (f b : byte) (d : Q) : forallb is_raw (signed_feed f b d) = true.
Proof.
  unfold signed_feed. destruct (Py.lt d 0); apply feed_chunks_raw.
Qed.

Lemma filter_none {A} (p q : A -> bool) (l : list A) :
  forallb q l = true -> (forall x, q x = true -> p x = false) -> filter p l = [].
Proof.
  intros Hq Hpq. induction l as [|x l IH]; [reflexivity|].
  simpl in *. apply andb_true_iff in Hq as [Hx Hl].
  rewrite (Hpq x Hx). apply IH. exact Hl.
Qed.

Lemma filter_feed (p : chunk -> bool) (f b : byte) (d : Q) :
  (forall c, is_raw c = true -> p c = false) -> filter p (signed_feed f b d) = [].
Proof.
  intro H. apply (filter_none p is_raw); [apply signed_feed_raw | exact H].
Qed.

Lemma raw_not_content (c : chunk) : is_raw c = true -> negb (is_raw c) = false.
Proof.
  intro H. now rewrite H.
Qed.

Lemma raw_not_text (c : chunk) : is_raw c = true -> is_text c = false.
Proof.
  destruct c; [reflexivity | discriminate | discriminate].
Qed.

Lemma raw_not_barcode (c : chunk) : is_raw c = true -> is_barcode c = false.
Proof.
  destruct c; [reflexivity | discriminate | discriminate].
Qed.

(** Filters a label buffer, dropping every feed. *)
Ltac filter_label H :=
  unfold label_buffer, chunks_of, fwd, bwd;
  rewrite ?filter_app, ?(filter_feed _ _ _ _ H); reflexivity.

(** C5 (as amended): an "Ingreso Equipo" job with a 6-character identifier
    made of CODE39 characters transmits one buffer holding three blocks
    with the spacing feed between them: text and barcode, feed, text and
    barcode, feed, text, then the cut feed and the cut.  That is 3 text
    emissions and 2 barcode emissions; each text shows the identifier twice
    (plain and after a star), each barcode is CODE39 of the identifier
    between stars, width 3, height 48; the third block has no barcode. *)
Theorem ingreso_equipo_content (gui : Gui) (now : datetime) (s : state) :
  optionmenu_label_type gui = "Ingreso Equipo"%string ->
  Py.len (entrada_osi gui) = 6%Z ->
  barcode_ok (entrada_osi gui) = true ->
  let osi := entrada_osi gui in
  let alto := optionmenu_label_size gui in
  let gap := optionmenu_gap_size gui in
  let T := Text (" OSI " ++ osi ++ TAB ++ "   *" ++ osi) in
  let B := Barcode ("*" ++ osi ++ "*") "CODE39" 48 3 "OFF" false in
  let sep := separacion alto MARGIN 5 3 in
  let hp0 := MARGIN + inject_Z gap / 2 + 6 + 6 + sep + 6 + 6 + sep + 6 in
  let d := inject_Z alto + inject_Z gap - hp0 + CUTTER_OFFSET + AJUSTE in
  exists buf : buffer,
    button_print_callback gui now s = (Val tt, mkState (output s) (sink s ++ [buf])) /\
    buf = config_chunks ++ bwd (align_distance gap)
          ++ [T; B] ++ fwd sep ++ [T; B] ++ fwd sep ++ [T]
          ++ fwd d ++ [Raw [x1b; x69]] /\
    label_content buf = [T; B; T; B; T] /\
    count_text buf = 3%nat /\
    count_barcode buf = 2%nat.
Proof.
  intros Ht Hv Hok osi alto gap T B sep hp0 d.
  exists (label_buffer IngresoEquipo gui now).
  split; [apply (button_print_callback_run IngresoEquipo); assumption|].
  split.
  { unfold label_buffer, chunks_of. cbv zeta.
    rewrite <- !app_assoc. reflexivity. }
  split; [|split].
  - unfold label_content. filter_label raw_not_content.
  - unfold count_text. f_equal.
    change 3%nat with (List.length [T; T; T]). f_equal. filter_label raw_not_text.
  - unfold count_barcode.
    change 2%nat with (List.length [B; B]). f_equal. filter_label raw_not_barcode.
Qed.

Lemma ingreso_equipo_content_witness :
  optionmenu_label_type gui_equipo = "Ingreso Equipo"%string /\
  Py.len (entrada_osi gui_equipo) = 6%Z /\
  barcode_ok (entrada_osi gui_equipo) = true /\
  exists buf : buffer,
    button_print_callback gui_equipo hoy_14 inicio = (Val tt, mkState [] [buf]) /\
    label_content buf =
      [Text (" OSI 123456" ++ TAB ++ "   *123456");
       Barcode "*123456*" "CODE39" 48 3 "OFF" false;
       Text (" OSI 123456" ++ TAB ++ "   *123456");
       Barcode "*123456*" "CODE39" 48 3 "OFF" false;
       Text (" OSI 123456" ++ TAB ++ "   *123456")] /\
    count_text buf = 3%nat /\
    count_barcode buf = 2%nat.
Proof.
  split; [reflexivity|]. split; [reflexivity|]. split; [reflexivity|].
  destruct (ingreso_equipo_content gui_equipo hoy_14 inicio eq_refl eq_refl eq_refl)
    as [buf [H1 [_ [H3 [H4 H5]]]]].
  exists buf. repeat split; assumption.
Defined.

(** C5 (as stated, refuted): identifier "123456"; the transmitted buffer
    holds 2 barcodes, not 3. *)
Lemma ingreso_equipo_three_barcodes_fails :
  ~ exists buf : buffer,
      sink (snd (button_print_callback gui_equipo hoy_14 inicio)) = [buf] /\
      count_text buf = 3%nat /\ count_barcode buf = 3%nat.
Proof.
  intros [buf [Hs [_ Hb]]].
  vm_compute in Hs. injection Hs as Hs. subst buf.
  vm_compute in Hb. discriminate Hb.
Qed.

(** C6 (the code departs from it): "Libre", height 50, gap 5, lines
    a, b, c, d, e.  The loop feeds by the spacing (24 steps) after each of
    the five lines, the fifth included; then comes the cut feed (104
    steps): 6 forward feeds, where 4 spacing feeds and the cut feed make
    5. *)
Theorem libre_feeds_after_last_line :
  button_print_callback gui_libre hoy_14 inicio =
    (Val tt,
     mkState []
       [config_chunks ++
        [Raw [x1b; x42; x28];
         Text ("a" ++ LF); Raw [x1b; x4a; x18];
         Text ("b" ++ LF); Raw [x1b; x4a; x18];
         Text ("c" ++ LF); Raw [x1b; x4a; x18];
         Text ("d" ++ LF); Raw [x1b; x4a; x18];
         Text ("e" ++ LF); Raw [x1b; x4a; x18];
         Raw [x1b; x4a; x68];
         Raw [x1b; x69]]]) /\
  count_feed_forward (label_buffer Libre gui_libre hoy_14) = 6%nat /\
  count_feed_forward (label_buffer IngresoEquipo gui_equipo hoy_14) = 3%nat.
Proof.
  split; [vm_compute; reflexivity|]. split; vm_compute; reflexivity.
Qed.

(** ** Identifier check of the intake layouts *)

(** C7 (as amended): in "Ingreso Equipo" and "Ingreso Golden Unit", an
    identifier whose length is not 6 ends the job after the configuration
    commands and the alignment feed have entered the buffer and before any
    label content does; the check empties the buffer, nothing is
    transmitted, and the callback leaves the state as it found it. *)
Theorem intake_abort (gui : Gui) (now : datetime) (s : state) :
  optionmenu_label_type gui = "Ingreso Equipo"%string \/
  optionmenu_label_type gui = "Ingreso Golden Unit"%string ->
  Py.len (entrada_osi gui) <> 6%Z ->
  let alto := optionmenu_label_size gui in
  let gap := optionmenu_gap_size gui in
  let start := MARGIN + inject_Z gap / 2 in
  let at_check := mkState (config_chunks ++ bwd (align_distance gap)) (sink s) in
  prologue gap (mkState [] (sink s)) = (Val start, at_check) /\
  output at_check <> [] /\
  match_tipo_etiqueta gui now alto gap start at_check = (Return, mkState [] (sink s)) /\
  button_print_callback gui now s = (Val tt, s).
Proof.
  intros Ht Hlen alto gap start at_check.
  assert (Hp : prologue gap (mkState [] (sink s)) = (Val start, at_check))
    by apply prologue_run.
  assert (Hne : (Py.len (entrada_osi gui) =? 6)%Z = false)
    by (apply Z.eqb_neq; exact Hlen).
  assert (Hm : match_tipo_etiqueta gui now alto gap start at_check
               = (Return, mkState [] (sink s))).
  { unfold match_tipo_etiqueta, check_osi.
    destruct Ht as [Ht | Ht]; rewrite Ht;
      cbn [String.eqb Ascii.eqb Bool.eqb andb]; rewrite Hne; reflexivity. }
  split; [exact Hp|]. split; [discriminate|]. split; [exact Hm|].
  unfold button_print_callback, def, with_new_printer. cbv zeta.
  fold gap alto. unfold bind at 1. rewrite Hp.
  unfold bind at 1. fold start. rewrite Hm.
  destruct s; reflexivity.
Qed.

Lemma intake_abort_witness :
  optionmenu_label_type gui_equipo_corto = "Ingreso Equipo"%string /\
  Py.len (entrada_osi gui_equipo_corto) <> 6%Z /\
  prologue 5 (mkState [] []) =
    (Val (MARGIN + inject_Z 5 / 2),
     mkState (config_chunks ++ bwd (align_distance 5)) []) /\
  output (mkState (config_chunks ++ bwd (align_distance 5)) []) <> [] /\
  match_tipo_etiqueta gui_equipo_corto hoy_14 50 5 (MARGIN + inject_Z 5 / 2)
    (mkState (config_chunks ++ bwd (align_distance 5)) []) = (Return, mkState [] []) /\
  button_print_callback gui_equipo_corto hoy_14 inicio = (Val tt, inicio).
Proof.
  split; [reflexivity|]. split; [discriminate|].
  apply (intake_abort gui_equipo_corto hoy_14 inicio);
    [left; reflexivity | discriminate].
Defined.

(** C7 (as stated, refuted): identifier "12345".  When the check runs the
    buffer already holds 10 commands, the configuration and the alignment
    feed; the check then discards them. *)
Lemma abort_before_any_byte_fails :
  exists (hp : Q) (at_check : state),
    prologue 5 inicio = (Val hp, at_check) /\
    match_tipo_etiqueta gui_equipo_corto hoy_14 50 5 hp at_check
      = (Return, mkState [] []) /\
    List.length (output at_check) = 10%nat /\
    output at_check <> [].
Proof.
  eexists. eexists.
  split; [vm_compute; reflexivity|].
  split; [vm_compute; reflexivity|].
  split; [reflexivity | discriminate].
Qed.

(** ** Dependence on the clock *)

Lemma salida_parte_blocks_date (alto : Z) (osi claim fru : string)
    (now1 now2 : datetime) (hp : Q) :
  strftime_dmY now1 = strftime_dmY now2 ->
  salida_parte_blocks alto osi claim fru now1 hp
  = salida_parte_blocks alto osi claim fru now2 hp.
Proof.
  intro H. unfold salida_parte_blocks. cbv zeta. now rewrite H.
Qed.

Lemma match_tipo_etiqueta_date (gui : Gui) (now1 now2 : datetime)
    (alto gap : Z) (hp : Q) :
  strftime_dmY now1 = strftime_dmY now2 \/
  optionmenu_label_type gui <> "Salida Parte"%string ->
  match_tipo_etiqueta gui now1 alto gap hp = match_tipo_etiqueta gui now2 alto gap hp.
Proof.
  intro H. unfold match_tipo_etiqueta. cbv zeta.
  destruct (String.eqb _ "Ingreso Equipo"); [reflexivity|].
  destruct (String.eqb _ "Ingreso Golden Unit"); [reflexivity|].
  destruct (String.eqb (optionmenu_label_type gui) "Salida Parte") eqn:E;
    [|reflexivity].
  destruct H as [H | H].
  - now rewrite (salida_parte_blocks_date _ _ _ _ now1 now2 _ H).
  - apply String.eqb_eq in E. contradiction.
Qed.

Lemma print_excel_row_date (alto gap : Z) (now1 now2 : datetime)
    (value : list string) (i : Z) (hp : Q) :
  strftime_dmY now1 = strftime_dmY now2 ->
  print_excel_row alto gap now1 value i hp = print_excel_row alto gap now2 value i hp.
Proof.
  intro H. unfold print_excel_row, row_get.
  destruct value as [|c0 [|c1 [|c2 rest]]]; cbn [nth_error]; try reflexivity.
  unfold salida_parte_blocks. cbv zeta. now rewrite H.
Qed.

Lemma print_excel_loop_date (alto gap : Z) (now1 now2 : datetime)
    (values : list (list string)) (i : Z) (hp : Q) (s : state) :
  strftime_dmY now1 = strftime_dmY now2 ->
  print_excel_loop alto gap now1 values i hp s
  = print_excel_loop alto gap now2 values i hp s.
Proof.
  intro H. revert i hp s. induction values as [|value values IH]; intros i hp s.
  - reflexivity.
  - cbn [print_excel_loop]. cbv zeta.
    rewrite (print_excel_row_date _ _ now1 now2 _ _ _ H).
    unfold bind.
    destruct (print_excel_row alto gap now2 value (i + 1) hp s) as [[hp' | | e] s'];
      [apply IH | reflexivity | reflexivity].
Qed.

Lemma bind_prologue {A} (gap : Z) (k : Q -> M A) (s : state) :
  (head_pos <- prologue gap ;; k head_pos) s
  = k (MARGIN + inject_Z gap / 2)
      (emit s (config_chunks ++ bwd (align_distance gap))).
Proof.
  eapply bind_run; [apply prologue_run | reflexivity].
Qed.

(** C9 (as amended): two runs of a job on the same inputs give the same
    buffers whenever their clocks show the same date (dd/mm/YYYY); when
    the layout is not "Salida Parte" the print button's result does not
    depend on the clock at all.  "Salida Parte" and the batch print the
    date of the run. *)
Theorem reproducible_given_date (gui : Gui) (now1 now2 : datetime) (s : state) :
  strftime_dmY now1 = strftime_dmY now2 \/
  optionmenu_label_type gui <> "Salida Parte"%string ->
  button_print_callback gui now1 s = button_print_callback gui now2 s /\
  (strftime_dmY now1 = strftime_dmY now2 ->
   forall df_values : list (list string),
     print_excel gui now1 df_values s = print_excel gui now2 df_values s).
Proof.
  intro H. split.
  - unfold button_print_callback, def, with_new_printer. cbv zeta.
    rewrite !bind_prologue.
    now rewrite (match_tipo_etiqueta_date gui now1 now2 _ _ _ H).
  - intros Hd df_values.
    unfold print_excel, def, with_new_printer. cbv zeta.
    rewrite !bind_prologue. unfold bind.
    now rewrite (print_excel_loop_date _ _ now1 now2 _ _ _ _ Hd).
Qed.

Lemma reproducible_given_date_witness :
  optionmenu_label_type gui_equipo <> "Salida Parte"%string /\
  button_print_callback gui_equipo hoy_14 inicio
  = button_print_callback gui_equipo hoy_15 inicio /\
  (strftime_dmY hoy_14 = strftime_dmY hoy_15 ->
   forall df_values : list (list string),
     print_excel gui_equipo hoy_14 df_values inicio
     = print_excel gui_equipo hoy_15 df_values inicio).
Proof.
  split; [discriminate|].
  apply (reproducible_given_date gui_equipo hoy_14 hoy_15 inicio).
  right. discriminate.
Defined.

(** C9 (as stated, refuted): the same "Salida Parte" job run on 14/12/2024
    and on 15/12/2024 transmits different buffers, and so does the same
    one-row batch. *)
Lemma reproducible_without_clock_fails :
  button_print_callback gui_salida hoy_14 inicio
  <> button_print_callback gui_salida hoy_15 inicio /\
  print_excel gui_excel hoy_14 [fila_1] inicio
  <> print_excel gui_excel hoy_15 [fila_1] inicio.
Proof.
  split; intro H; vm_compute in H; discriminate H.
Qed.


(** * Further properties of the encoder *)

Lemma bytes1_raises (n : Z) (s : state) :
  in_byte_range n = false -> bytes1 n s = (Raise ValueError, s).
Proof.
  unfold in_byte_range, bytes1. intro H.
  destruct (Z.ltb_spec n 0); [reflexivity|].
  destruct (Byte.of_N (Z.to_N n)) as [b|] eqn:E; [|reflexivity].
  apply Byte.to_of_N in E. pose proof (Byte.to_N_bounded b) as Hb.
  apply andb_false_iff in H as [H | H];
    [apply Z.leb_gt in H | apply Z.leb_gt in H]; lia.
Qed.

Lemma in_byte_range_true (n : Z) : in_byte_range n = true -> (0 <= n <= 255)%Z.
Proof.
  unfold in_byte_range. intro H. apply andb_true_iff in H as [H1 H2].
  apply Z.leb_le in H1. apply Z.leb_le in H2. lia.
Qed.

(** X1: [set_print_density] never raises: whatever the density, it appends
    the one command [GS ~ n] with n the density clamped into 65..130. *)
Theorem set_print_density_clamps (density : Z) (s : state) :
  exists b : byte,
    step_count b = Z.max 65 (Z.min 130 density) /\
    set_print_density density s = (Val tt, emit s [Raw [x1d; x7e; b]]).
Proof.
  exists (byte_of_steps (Z.max 65 (Z.min 130 density))).
  split; [apply step_count_byte_of_steps; lia|].
  unfold set_print_density. cbv zeta.
  assert (Hc : (if (density <? 65)%Z then 65%Z
                else if (density >? 130)%Z then 130%Z else density)
               = Z.max 65 (Z.min 130 density)).
  { destruct (Z.ltb_spec density 65); [lia|].
    rewrite Z.gtb_ltb. destruct (Z.ltb_spec 130 density); lia. }
  rewrite Hc.
  eapply bind_run; [apply bytes1_run; lia | reflexivity].
Qed.

(** X2: [set_lf_pitch] never raises: it appends the one command [ESC 3 n]
    with n the pitch clamped into 0..255. *)
Theorem set_lf_pitch_clamps (pitch : Z) (s : state) :
  exists b : byte,
    step_count b = Z.max 0 (Z.min 255 pitch) /\
    set_lf_pitch pitch s = (Val tt, emit s [Raw [x1b; x33; b]]).
Proof.
  exists (byte_of_steps (Z.max 0 (Z.min 255 pitch))).
  split; [apply step_count_byte_of_steps; lia|].
  unfold set_lf_pitch. cbv zeta.
  assert (Hc : (if (pitch <? 0)%Z then 0%Z
                else if (pitch >? 255)%Z then 255%Z else pitch)
               = Z.max 0 (Z.min 255 pitch)).
  { destruct (Z.ltb_spec pitch 0); [lia|].
    rewrite Z.gtb_ltb. destruct (Z.ltb_spec 255 pitch); lia. }
  rewrite Hc.
  eapply bind_run; [apply bytes1_run; lia | reflexivity].
Qed.

(** X3: [set_margins] does not clamp.  With both values in 0..255 it
    appends the one command [GS W left width]; otherwise it raises
    ValueError and the buffer is left as it was. *)
Theorem set_margins_range (margen_izq ancho_impresion : Z) (s : state) :
  if in_byte_range margen_izq && in_byte_range ancho_impresion then
    exists b1 b2 : byte,
      step_count b1 = margen_izq /\ step_count b2 = ancho_impresion /\
      set_margins margen_izq ancho_impresion s
      = (Val tt, emit s [Raw [x1d; x57; b1; b2]])
  else
    set_margins margen_izq ancho_impresion s = (Raise ValueError, s).
Proof.
  unfold set_margins.
  destruct (in_byte_range margen_izq) eqn:E1; cbn [andb].
  - apply in_byte_range_true in E1.
    destruct (in_byte_range ancho_impresion) eqn:E2.
    + apply in_byte_range_true in E2.
      exists (byte_of_steps margen_izq), (byte_of_steps ancho_impresion).
      split; [apply step_count_byte_of_steps; exact E1|].
      split; [apply step_count_byte_of_steps; exact E2|].
      eapply bind_run; [apply bytes1_run; exact E1|].
      eapply bind_run; [apply bytes1_run; exact E2 | reflexivity].
    + eapply bind_run; [apply bytes1_run; exact E1|].
      unfold bind. now rewrite (bytes1_raises _ _ E2).
  - unfold bind. now rewrite (bytes1_raises _ _ E1).
Qed.

(** ** Steps a feed carries *)

Lemma Qfloor_unique (x : Q) (z : Z) :
  inject_Z z <= x -> x < inject_Z (z + 1) -> Qfloor x = z.
Proof.
  intros Hlo Hhi.
  pose proof (Qfloor_le x) as Hl. pose proof (Qlt_floor x) as Hh.
  assert (H1 : (Qfloor x < z + 1)%Z).
  { rewrite Zlt_Qlt. apply Qle_lt_trans with x; assumption. }
  assert (H2 : (z < Qfloor x + 1)%Z).
  { rewrite Zlt_Qlt. apply Qle_lt_trans with x; assumption. }
  lia.
Qed.

(** Full steps and remainder add up to the whole distance in steps. *)
Lemma steps_add_up (d : Q) :
  0 <= d ->
  (255 * Qfloor (d / 31.875) + Qfloor (Py.mod_ d 31.875 * 8))%Z = Qfloor (d * 8).
Proof.
  intro Hd. symmetry. apply Qfloor_unique.
  - rewrite inject_Z_plus, inject_Z_mult.
    pose proof (Qfloor_le (Py.mod_ d 31.875 * 8)) as Hr.
    unfold Py.mod_ in *.
    set (k := inject_Z (Qfloor (d / 31.875))) in *.
    set (r := inject_Z (Qfloor ((d - 31.875 * k) * 8))) in *.
    change (inject_Z 255) with 255. lra.
  - rewrite !inject_Z_plus, inject_Z_mult.
    pose proof (Qlt_floor (Py.mod_ d 31.875 * 8)) as Hr.
    rewrite inject_Z_plus in Hr.
    unfold Py.mod_ in *.
    set (k := inject_Z (Qfloor (d / 31.875))) in *.
    set (r := inject_Z (Qfloor ((d - 31.875 * k) * 8))) in *.
    change (inject_Z 255) with 255. change (inject_Z 1) with 1 in *. lra.
Qed.

Lemma net_steps_app (a b : buffer) :
  net_steps (a ++ b) = (net_steps a + net_steps b)%Z.
Proof.
  induction a as [|c a IH]; [reflexivity|].
  cbn [app net_steps fold_right] in *. fold (net_steps (a ++ b)). fold (net_steps a).
  rewrite IH. lia.
Qed.

Lemma net_steps_repeat (c : chunk) (n : nat) :
  net_steps (repeat c n) = (Z.of_nat n * feed_steps c)%Z.
Proof.
  induction n as [|n IH]; [reflexivity|].
  cbn [repeat net_steps fold_right]. fold (net_steps (repeat c n)).
  rewrite IH. lia.
Qed.

Lemma net_steps_feed_chunks (d : Q) :
  0 <= d ->
  net_steps (feed_chunks x4a d) = Qfloor (d * 8) /\
  net_steps (feed_chunks x42 d) = (- Qfloor (d * 8))%Z.
Proof.
  intro Hd. unfold feed_chunks.
  assert (Hq : 0 <= d / 31.875)
    by (apply Qle_shift_div_l; [reflexivity | lra]).
  pose proof (Qfloor_nonneg _ Hq) as Hk.
  pose proof (resto_steps_bounds d) as Hr.
  rewrite !net_steps_app, !net_steps_repeat, Z2Nat.id by exact Hk.
  rewrite <- (steps_add_up d Hd).
  cbn [net_steps fold_right feed_steps].
  change (Byte.eqb x1b x1b) with true. cbv iota.
  change (Byte.eqb x4a x4a) with true.
  change (Byte.eqb x42 x4a) with false.
  change (Byte.eqb x42 x42) with true. cbv iota.
  rewrite step_count_byte_of_steps by lia.
  change (step_count xff) with 255%Z. split; lia.
Qed.

Lemma net_steps_signed_feed (d : Q) :
  let n := if Py.lt d 0 then (- Qfloor (- d * 8))%Z else Qfloor (d * 8) in
  net_steps (fwd d) = n /\ net_steps (bwd d) = (- n)%Z.
Proof.
  unfold fwd, bwd, signed_feed. destruct (Py.lt d 0) eqn:E.
  - apply Py_lt_true in E.
    destruct (net_steps_feed_chunks (- d)) as [Hf Hb]; [lra|].
    rewrite Hf, Hb. split; lia.
  - apply Py_lt_false in E.
    destruct (net_steps_feed_chunks d E) as [Hf Hb].
    rewrite Hf, Hb. split; reflexivity.
Qed.

(** X4: a feed of d >= 0 mm moves the paper by floor(8 d) steps in all,
    forward or backward: the full-step commands and the remainder command
    together lose less than one step (1/8 mm) against the request. *)
Theorem feed_total_steps (d : Q) (s : state) :
  0 <= d ->
  let n := Qfloor (d * 8) in
  (exists s1 : state,
     feed_forward_mm RECURSION_LIMIT d s = (Val d, s1) /\
     net_steps (output s1) = (net_steps (output s) + n)%Z) /\
  (exists s2 : state,
     feed_backward_mm RECURSION_LIMIT d s = (Val (- d), s2) /\
     net_steps (output s2) = (net_steps (output s) - n)%Z) /\
  inject_Z n * (1 # 8) <= d /\ d < inject_Z n * (1 # 8) + (1 # 8).
Proof.
  intros Hd n.
  destruct (net_steps_feed_chunks d Hd) as [Hf Hb].
  split; [|split].
  - eexists. split; [apply feed_forward_mm_run|].
    cbn [emit output]. rewrite net_steps_app, signed_feed_nonneg by exact Hd.
    now rewrite Hf.
  - eexists. split; [apply feed_backward_mm_run|].
    cbn [emit output]. rewrite net_steps_app, signed_feed_nonneg by exact Hd.
    rewrite Hb. fold n. lia.
  - pose proof (Qfloor_le (d * 8)) as Hl. pose proof (Qlt_floor (d * 8)) as Hh.
    rewrite inject_Z_plus in Hh. change (inject_Z 1) with 1 in Hh.
    fold n in Hl, Hh. set (z := inject_Z n) in *. split; lra.
Qed.

Lemma feed_total_steps_witness :
  0 <= 40 /\
  exists s1 : state,
    feed_forward_mm RECURSION_LIMIT 40 inicio = (Val 40, s1) /\
    net_steps (output s1) = (net_steps (output inicio) + Qfloor (40 * 8))%Z.
Proof.
  split; [discriminate|].
  exact (proj1 (feed_total_steps 40 inicio ltac:(discriminate))).
Defined.

(** X5: a distance below one full step (0 <= d < 31.875 mm, zero included)
    gives exactly one command, carrying floor(8 d) steps. *)
Theorem feed_single_command (d : Q) (s : state) :
  0 <= d -> d < 31.875 ->
  exists b : byte,
    step_count b = Qfloor (d * 8) /\
    feed_forward_mm RECURSION_LIMIT d s = (Val d, emit s [Raw [x1b; x4a; b]]) /\
    feed_backward_mm RECURSION_LIMIT d s = (Val (- d), emit s [Raw [x1b; x42; b]]).
Proof.
  intros Hlo Hhi.
  assert (Hk : Qfloor (d / 31.875) = 0%Z).
  { apply Qfloor_unique.
    - apply Qle_shift_div_l; [reflexivity | change (inject_Z 0) with 0; lra].
    - apply Qlt_shift_div_r; [reflexivity | change (inject_Z (0 + 1)) with 1; lra]. }
  assert (Hm : Py.mod_ d 31.875 * 8 == d * 8).
  { unfold Py.mod_. rewrite Hk. change (inject_Z 0) with 0. ring. }
  pose proof (resto_steps_bounds d) as Hr.
  exists (byte_of_steps (Qfloor (Py.mod_ d 31.875 * 8))).
  split; [|split].
  - rewrite step_count_byte_of_steps by lia. apply Qfloor_comp. exact Hm.
  - rewrite feed_forward_mm_run, signed_feed_nonneg by exact Hlo.
    unfold feed_chunks. rewrite Hk. reflexivity.
  - rewrite feed_backward_mm_run, signed_feed_nonneg by exact Hlo.
    unfold feed_chunks. rewrite Hk. reflexivity.
Qed.

Lemma feed_single_command_witness :
  0 <= 0 /\ 0 < 31.875 /\
  exists b : byte,
    step_count b = Qfloor (0 * 8) /\
    feed_forward_mm RECURSION_LIMIT 0 inicio = (Val 0, emit inicio [Raw [x1b; x4a; b]]) /\
    feed_backward_mm RECURSION_LIMIT 0 inicio = (Val (- 0), emit inicio [Raw [x1b; x42; b]]).
Proof.
  split; [discriminate|]. split; [reflexivity|].
  apply (feed_single_command 0 inicio); [discriminate | reflexivity].
Defined.

(** X6: on a negative distance each feed function does what the other does
    on the opposite distance: for d > 0, [feed_forward_mm (-d)] is
    [feed_backward_mm d] and [feed_backward_mm (-d)] is [feed_forward_mm d],
    commands and returned value alike. *)
Theorem feed_redirect (d : Q) (s : state) :
  0 < d ->
  feed_forward_mm RECURSION_LIMIT (- d) s = feed_backward_mm RECURSION_LIMIT d s /\
  feed_backward_mm RECURSION_LIMIT (- d) s = feed_forward_mm RECURSION_LIMIT d s.
Proof.
  intro Hd.
  assert (Hn : Py.lt (- d) 0 = true) by (apply Py_lt_true; lra).
  assert (Hp : Py.lt d 0 = false) by (apply Py_lt_false; lra).
  rewrite !feed_forward_mm_run, !feed_backward_mm_run.
  unfold signed_feed. rewrite Hn, Hp, !Qopp_opp_eq. split; reflexivity.
Qed.

Lemma feed_redirect_witness :
  0 < 40 /\
  feed_forward_mm RECURSION_LIMIT (- (40)) inicio
  = feed_backward_mm RECURSION_LIMIT 40 inicio /\
  feed_backward_mm RECURSION_LIMIT (- (40)) inicio
  = feed_forward_mm RECURSION_LIMIT 40 inicio.
Proof.
  split; [reflexivity|]. apply (feed_redirect 40 inicio). reflexivity.
Defined.

(** X7: feeding forward and then backward by the same distance, of either
    sign, undoes itself: the returned values cancel and the buffer's net
    step count is what it was. *)
Theorem feed_forward_backward_cancel (d : Q) (s : state) :
  exists (a b : Q) (s1 s2 : state),
    feed_forward_mm RECURSION_LIMIT d s = (Val a, s1) /\
    feed_backward_mm RECURSION_LIMIT d s1 = (Val b, s2) /\
    a + b == 0 /\
    net_steps (output s2) = net_steps (output s) /\
    List.length (output s2) = (List.length (output s) + 2 * List.length (fwd d))%nat.
Proof.
  eexists. eexists. eexists. eexists.
  split; [apply feed_forward_mm_run|].
  split; [apply feed_backward_mm_run|].
  split; [lra|].
  destruct (net_steps_signed_feed d) as [Hf Hb].
  cbn [emit output]. fold (fwd d) (bwd d). split.
  - rewrite !net_steps_app, Hf, Hb. lia.
  - rewrite !length_app.
    assert (Hl : List.length (bwd d) = List.length (fwd d)).
    { unfold fwd, bwd, signed_feed, feed_chunks.
      destruct (Py.lt d 0); rewrite !length_app, !repeat_length; reflexivity. }
    rewrite Hl. lia.
Qed.

(** * Further properties of the layouts *)

(** X8: when the blocks leave no negative space (H - 2M - 6L >= 0, B >= 2)
    the spacing is not negative, never more than the even share
    (H - 2M - 6L) / (B - 1), and less than 1/8 mm short of it. *)
Theorem separacion_bounds (H : Z) (M : Q) (L B : Z) :
  (2 <= B)%Z ->
  0 <= inject_Z H - 2 * M - 6 * inject_Z L ->
  let share := (inject_Z H - 2 * M - 6 * inject_Z L) / (inject_Z B - 1) in
  0 <= separacion H M L B /\
  separacion H M L B <= share /\
  share < separacion H M L B + (1 # 8).
Proof.
  intros HB Hnum share. unfold separacion. fold share.
  assert (Hden : 0 < inject_Z B - 1).
  { assert (inject_Z 2 <= inject_Z B) by (rewrite <- Zle_Qle; exact HB).
    change (inject_Z 2) with 2 in *. lra. }
  assert (Hs : 0 <= share).
  { unfold share.
    set (n := inject_Z H - 2 * M - 6 * inject_Z L) in *.
    set (m := inject_Z B - 1) in *.
    apply Qle_shift_div_l; [exact Hden | lra]. }
  rewrite Py_int_floor by lra.
  pose proof (Qfloor_le (share * 8)) as Hl.
  pose proof (Qlt_floor (share * 8)) as Hh.
  rewrite inject_Z_plus in Hh. change (inject_Z 1) with 1 in Hh.
  assert (H0 : (0 <= Qfloor (share * 8))%Z) by (apply Qfloor_nonneg; lra).
  rewrite Zle_Qle in H0. change (inject_Z 0) with 0 in H0.
  unfold Qdiv at 1 2 3. change (/ 8) with (1 # 8).
  set (f := inject_Z (Qfloor (share * 8))) in *.
  split; [|split]; lra.
Qed.

Lemma separacion_bounds_witness :
  (2 <= 5)%Z /\
  0 <= inject_Z 49 - 2 * MARGIN - 6 * inject_Z 5 /\
  0 <= separacion 49 MARGIN 5 5 /\
  separacion 49 MARGIN 5 5
    <= (inject_Z 49 - 2 * MARGIN - 6 * inject_Z 5) / (inject_Z 5 - 1) /\
  (inject_Z 49 - 2 * MARGIN - 6 * inject_Z 5) / (inject_Z 5 - 1)
    < separacion 49 MARGIN 5 5 + (1 # 8).
Proof.
  split; [lia|]. split; [discriminate|].
  apply (separacion_bounds 49 MARGIN 5 5); [lia | discriminate].
Defined.

Lemma sep3_steps (alto : Z) : sep3 alto * 8 == inject_Z (4 * (alto - 38)).
Proof.
  unfold sep3, separacion, MARGIN.
  set (x := _ / (inject_Z 3 - 1) * 8).
  assert (Hx : x == inject_Z (4 * (alto - 38))).
  { unfold x, Z.sub. rewrite inject_Z_mult, inject_Z_plus.
    change (inject_Z 5) with 5. change (inject_Z 3) with 3.
    change (inject_Z 4) with 4. change (inject_Z (- (38))) with (- (38)).
    field. }
  rewrite (Py_int_inject _ _ Hx).
  unfold Qdiv. change (/ 8) with (1 # 8).
  set (z := inject_Z _). ring.
Qed.

Lemma sep5_steps (alto : Z) : sep5 alto * 8 == inject_Z (2 * (alto - 38)).
Proof.
  unfold sep5, separacion, MARGIN.
  set (x := _ / (inject_Z 5 - 1) * 8).
  assert (Hx : x == inject_Z (2 * (alto - 38))).
  { unfold x, Z.sub. rewrite inject_Z_mult, inject_Z_plus.
    change (inject_Z 5) with 5. change (inject_Z 2) with 2.
    change (inject_Z (- (38))) with (- (38)). field. }
  rewrite (Py_int_inject _ _ Hx).
  unfold Qdiv. change (/ 8) with (1 # 8).
  set (z := inject_Z _). ring.
Qed.

(** X9: with the program's own constants the quantisation loses nothing:
    at every integer label height the spacing of the three-block layouts
    is exactly (alto - 38) / 2 mm and that of "Libre" exactly
    (alto - 38) / 4 mm, negative below 38 mm. *)
Theorem separacion_exact (alto : Z) :
  separacion alto MARGIN 5 3 == (inject_Z alto - 38) / 2 /\
  separacion alto MARGIN 5 5 == (inject_Z alto - 38) / 4.
Proof.
  pose proof (sep3_steps alto) as H3. pose proof (sep5_steps alto) as H5.
  unfold sep3, sep5 in *.
  rewrite inject_Z_mult in H3, H5. unfold Z.sub in H3, H5.
  rewrite inject_Z_plus in H3, H5.
  change (inject_Z (- (38))) with (- (38)) in *.
  change (inject_Z 4) with 4 in *. change (inject_Z 2) with 2 in *.
  unfold Qdiv. change (/ 2) with (1 # 2). change (/ 4) with (1 # 4).
  set (a := inject_Z alto) in *.
  set (x := separacion alto MARGIN 5 3) in *.
  set (y := separacion alto MARGIN 5 5) in *.
  split; lra.
Qed.

(** X10: when the identifier check passes and the identifier makes a
    barcode, in the three-block layouts the blocks end exactly one margin
    before the label's end, at alto + gap/2 - MARGIN, whatever the height,
    so the cut feed is always gap/2 + MARGIN + CUTTER_OFFSET (plus AJUSTE
    for the intake layouts); "Libre" feeds once more after its last line
    and ends one spacing, (alto - 38) / 4, further down, and its cut feed is
    shorter by as much. *)
Theorem blocks_fill_label (l : layout) (gui : Gui) (now : datetime) (s : state) :
  optionmenu_label_type gui = tipo_of l ->
  validated l gui ->
  encodable l gui ->
  let alto := optionmenu_label_size gui in
  let gap := optionmenu_gap_size gui in
  let start := MARGIN + inject_Z gap / 2 in
  let extra := match l with Libre => (inject_Z alto - 38) / 4 | _ => 0 end in
  exists (hp0 : Q) (s1 : state) (hp1 d : Q),
    blocks_of l gui now start s = (Val hp0, s1) /\
    hp0 == inject_Z alto + inject_Z gap / 2 - MARGIN + extra /\
    match_tipo_etiqueta gui now alto gap start s = (Val hp1, emit s1 (fwd d)) /\
    d == inject_Z gap / 2 + MARGIN + CUTTER_OFFSET + ajuste_of l - extra.
Proof.
  intros Ht Hv He alto gap start extra.
  exists (head_pos_of l gui start), (emit s (chunks_of l gui now)).
  eexists. eexists.
  split; [apply blocks_of_run; exact He|].
  assert (Hhp : head_pos_of l gui start
                == inject_Z alto + inject_Z gap / 2 - MARGIN + extra).
  { pose proof (sep3_steps alto) as H3. pose proof (sep5_steps alto) as H5.
    rewrite inject_Z_mult in H3, H5. unfold Z.sub in H3, H5.
    rewrite inject_Z_plus in H3, H5.
    change (inject_Z (- (38))) with (- (38)) in *.
    change (inject_Z 4) with 4 in *. change (inject_Z 2) with 2 in *.
    unfold extra, start, MARGIN.
    destruct l; cbn [head_pos_of libre_head_pos libre_lineas fold_left];
      fold alto; unfold Qdiv;
      change (/ 2) with (1 # 2); change (/ 4) with (1 # 4);
      set (a := inject_Z alto) in *; set (g := inject_Z gap) in *;
      set (x := sep3 alto) in *; set (y := sep5 alto) in *; lra. }
  split; [exact Hhp|].
  split.
  - rewrite (match_tipo_etiqueta_run l) by assumption.
    rewrite emit_emit. reflexivity.
  - unfold cut_distance. fold alto gap. fold start.
    set (h := head_pos_of l gui start) in *.
    unfold Qdiv in *. change (/ 2) with (1 # 2) in *.
    set (a := inject_Z alto) in *. set (g := inject_Z gap) in *.
    set (j := ajuste_of l). unfold MARGIN, CUTTER_OFFSET in *. lra.
Qed.

Lemma blocks_fill_label_witness :
  optionmenu_label_type gui_salida = tipo_of SalidaParte /\
  validated SalidaParte gui_salida /\
  encodable SalidaParte gui_salida /\
  exists (hp0 : Q) (s1 : state) (hp1 d : Q),
    blocks_of SalidaParte gui_salida hoy_14 (MARGIN + inject_Z 5 / 2) inicio
      = (Val hp0, s1) /\
    hp0 == inject_Z 50 + inject_Z 5 / 2 - MARGIN + 0 /\
    match_tipo_etiqueta gui_salida hoy_14 50 5 (MARGIN + inject_Z 5 / 2) inicio
      = (Val hp1, emit s1 (fwd d)) /\
    d == inject_Z 5 / 2 + MARGIN + CUTTER_OFFSET + 0 - 0.
Proof.
  split; [reflexivity|]. split; [exact I|]. split; [reflexivity|].
  exact (blocks_fill_label SalidaParte gui_salida hoy_14 inicio eq_refl I eq_refl).
Defined.

Lemma net_steps_exact (d : Q) (z : Z) :
  d * 8 == inject_Z z ->
  net_steps (fwd d) = z /\ net_steps (bwd d) = (- z)%Z.
Proof.
  intro H. destruct (net_steps_signed_feed d) as [Hf Hb].
  rewrite Hf, Hb. destruct (Py.lt d 0).
  - assert (Hn : - d * 8 == inject_Z (- z)) by (rewrite inject_Z_opp; lra).
    rewrite (Qfloor_comp _ _ Hn), Qfloor_Z. split; lia.
  - rewrite (Qfloor_comp _ _ H), Qfloor_Z. split; reflexivity.
Qed.

Lemma net_steps_cons (c : chunk) (b : buffer) :
  net_steps (c :: b) = (feed_steps c + net_steps b)%Z.
Proof.
  reflexivity.
Qed.

Lemma feed_steps_libre_text (linea : string) : feed_steps (libre_text linea) = 0%Z.
Proof.
  unfold libre_text. destruct (Py.len linea >? 0)%Z; reflexivity.
Qed.

Lemma align_steps (gap : Z) : align_distance gap * 8 == inject_Z (60 - 4 * gap).
Proof.
  unfold align_distance, CUTTER_OFFSET, MARGIN, POST_CUT_ADV, Z.sub.
  rewrite inject_Z_plus, inject_Z_opp, inject_Z_mult.
  change (inject_Z 60) with 60. change (inject_Z 4) with 4.
  unfold Qdiv. change (/ 2) with (1 # 2).
  set (g := inject_Z gap). lra.
Qed.

(** The cut feed in steps, by layout. *)
Lemma cut_steps (l : layout) (gui : Gui) :
  let alto := optionmenu_label_size gui in
  let gap := optionmenu_gap_size gui in
  cut_distance l gui (head_pos_of l gui (MARGIN + inject_Z gap / 2)) * 8
  == inject_Z match l with
              | IngresoEquipo | IngresoGoldenUnit => 4 * gap + 156
              | SalidaParte => 4 * gap + 108
              | Libre => 4 * gap + 184 - 2 * alto
              end.
Proof.
  intros alto gap.
  pose proof (sep3_steps alto) as H3. pose proof (sep5_steps alto) as H5.
  rewrite inject_Z_mult in H3, H5. unfold Z.sub in H3, H5.
  rewrite inject_Z_plus in H3, H5.
  change (inject_Z (- (38))) with (- (38)) in *.
  change (inject_Z 4) with 4 in *. change (inject_Z 2) with 2 in *.
  unfold cut_distance, MARGIN, CUTTER_OFFSET.
  destruct l;
    cbn [head_pos_of libre_head_pos libre_lineas fold_left ajuste_of];
    fold alto gap; unfold AJUSTE, Z.sub;
    rewrite ?inject_Z_plus, ?inject_Z_opp, ?inject_Z_mult;
    change (inject_Z 4) with 4; change (inject_Z 2) with 2;
    change (inject_Z 156) with 156; change (inject_Z 108) with 108;
    change (inject_Z 184) with 184;
    unfold Qdiv; change (/ 2) with (1 # 2);
    set (a := inject_Z alto) in *; set (g := inject_Z gap) in *;
    set (x := sep3 alto) in *; set (y := sep5 alto) in *; lra.
Qed.

(** X11: when the identifier check passes and the identifier makes a
    barcode, whatever the texts and the spacing, the feed commands of the
    transmitted label add up to 8 (alto + gap) - 256 steps, plus 48 for
    the intake layouts: one label pitch, less the five 6 mm lines and the
    2 mm post-cut advance (32 mm), plus AJUSTE where it applies. *)
Theorem label_net_feed (l : layout) (gui : Gui) (now : datetime) (s : state) :
  optionmenu_label_type gui = tipo_of l ->
  validated l gui ->
  encodable l gui ->
  let alto := optionmenu_label_size gui in
  let gap := optionmenu_gap_size gui in
  exists buf : buffer,
    button_print_callback gui now s = (Val tt, mkState (output s) (sink s ++ [buf])) /\
    net_steps buf =
      (8 * (alto + gap) - 256
       + match l with IngresoEquipo | IngresoGoldenUnit => 48 | _ => 0 end)%Z.
Proof.
  intros Ht Hv He alto gap.
  exists (label_buffer l gui now).
  split; [apply (button_print_callback_run l); assumption|].
  unfold label_buffer. cbv zeta.
  destruct (net_steps_exact _ _ (align_steps (optionmenu_gap_size gui))) as [_ Ha].
  destruct (net_steps_exact _ _ (cut_steps l gui)) as [Hc _].
  destruct (net_steps_exact _ _ (sep3_steps alto)) as [H3 _].
  destruct (net_steps_exact _ _ (sep5_steps alto)) as [H5 _].
  rewrite !net_steps_app, Ha, Hc.
  change (net_steps config_chunks) with 0%Z.
  change (net_steps [Raw [x1b; x69]]) with 0%Z.
  fold alto gap.
  destruct l; unfold chunks_of, salida_chunks; cbv zeta; fold alto;
    cbn [flat_map libre_lineas];
    rewrite ?net_steps_app, ?net_steps_cons, ?feed_steps_libre_text, ?H3, ?H5;
    cbn [net_steps fold_right feed_steps equipo_text golden_text osi_barcode];
    lia.
Qed.

Lemma label_net_feed_witness :
  optionmenu_label_type gui_equipo = tipo_of IngresoEquipo /\
  validated IngresoEquipo gui_equipo /\
  encodable IngresoEquipo gui_equipo /\
  exists buf : buffer,
    button_print_callback gui_equipo hoy_14 inicio = (Val tt, mkState [] ([] ++ [buf])) /\
    net_steps buf = (8 * (50 + 5) - 256 + 48)%Z.
Proof.
  split; [reflexivity|]. split; [reflexivity|]. split; [reflexivity|].
  exact (label_net_feed IngresoEquipo gui_equipo hoy_14 inicio eq_refl eq_refl eq_refl).
Defined.

(** * Further properties of the print button *)

Lemma button_print_callback_abort (gui : Gui) (now : datetime) (s : state) :
  intake_tipo (optionmenu_label_type gui) = true ->
  Py.len (entrada_osi gui) <> 6%Z ->
  button_print_callback gui now s = (Val tt, s).
Proof.
  intros Ht Hlen.
  assert (Hne : (Py.len (entrada_osi gui) =? 6)%Z = false)
    by (apply Z.eqb_neq; exact Hlen).
  unfold button_print_callback, def, with_new_printer. cbv zeta.
  rewrite bind_prologue.
  unfold match_tipo_etiqueta, check_osi, intake_tipo in *. cbv zeta.
  destruct (String.eqb (optionmenu_label_type gui) "Ingreso Equipo").
  - rewrite Hne. destruct s; reflexivity.
  - cbn [orb] in Ht. rewrite Ht, Hne. destruct s; reflexivity.
Qed.

Lemma button_print_callback_blank (gui : Gui) (now : datetime) (s : state) :
  known_tipo (optionmenu_label_type gui) = false ->
  button_print_callback gui now s =
  (Val tt,
   mkState (output s) (sink s ++ [blank_buffer (optionmenu_gap_size gui)])).
Proof.
  intro Hk. unfold known_tipo in Hk.
  apply orb_false_iff in Hk as [Hk H4].
  apply orb_false_iff in Hk as [Hk H3].
  apply orb_false_iff in Hk as [H1 H2].
  unfold button_print_callback, def, with_new_printer. cbv zeta.
  rewrite bind_prologue.
  unfold match_tipo_etiqueta. cbv zeta. rewrite H1, H2, H3, H4.
  unfold blank_buffer, bind, emit.
  cbn [full_cut _raw get_output print_buffer clear close ret output sink ESC app].
  rewrite <- app_assoc. reflexivity.
Qed.

Lemma known_tipo_layout (tipo : string) :
  known_tipo tipo = true -> exists l : layout, tipo = tipo_of l.
Proof.
  unfold known_tipo. intro H.
  destruct (String.eqb_spec tipo "Ingreso Equipo") as [E|_];
    [exists IngresoEquipo; exact E|].
  destruct (String.eqb_spec tipo "Ingreso Golden Unit") as [E|_];
    [exists IngresoGoldenUnit; exact E|].
  destruct (String.eqb_spec tipo "Salida Parte") as [E|_];
    [exists SalidaParte; exact E|].
  destruct (String.eqb_spec tipo "Libre") as [E|_];
    [exists Libre; exact E|].
  discriminate H.
Qed.

Lemma bind_raise {A B} (m : M A) (k : A -> M B) (s s1 : state) (e : exn) :
  m s = (Raise e, s1) -> bind m k s = (Raise e, s1).
Proof.
  intro Hm. unfold bind. now rewrite Hm.
Qed.

(** The layout prints a barcode and the identifier does not make one. *)
Lemma blocks_of_raises (l : layout) (gui : Gui) (now : datetime) (hp : Q) (s : state) :
  l <> Libre ->
  barcode_ok (entrada_osi gui) = false ->
  exists s1 : state,
    blocks_of l gui now hp s = (Raise BarcodeCodeError, s1) /\ sink s1 = sink s.
Proof.
  intros Hl Hbad.
  destruct l; [| | |contradiction];
    cbn [blocks_of];
    unfold ingreso_equipo_blocks, ingreso_golden_unit_blocks, salida_parte_blocks;
    cbv zeta; eexists; (split; [
      repeat (eapply bind_run; [solve [auto with runs] | cbv beta zeta]);
      apply bind_raise; apply barcode_raises; exact Hbad
    | reflexivity ]).
Qed.

Lemma button_print_callback_raises (l : layout) (gui : Gui) (now : datetime) (s : state) :
  optionmenu_label_type gui = tipo_of l ->
  validated l gui ->
  l <> Libre ->
  barcode_ok (entrada_osi gui) = false ->
  button_print_callback gui now s = (Raise BarcodeCodeError, s).
Proof.
  intros Ht Hv Hl Hbad.
  unfold button_print_callback, def, with_new_printer. cbv zeta.
  rewrite bind_prologue. unfold bind at 1.
  rewrite (match_tipo_etiqueta_layout l) by assumption.
  unfold bind at 1.
  match goal with
  | |- context [blocks_of l gui now ?h ?st] =>
      destruct (blocks_of_raises l gui now h st Hl Hbad) as [s1 [Hr Hs]]
  end.
  rewrite Hr, Hs. cbn [emit sink]. destruct s; reflexivity.
Qed.

(** X12: the print button has three outcomes, and in each it leaves no
    printer state behind.  An intake layout with an identifier not 6
    characters long returns with nothing transmitted; otherwise a layout
    that prints a barcode, with an identifier that is not a CODE39 code
    (empty, lowercase, ...), raises BarcodeCodeError with nothing
    transmitted; every other input transmits exactly one buffer. *)
Theorem button_print_callback_outcomes (gui : Gui) (now : datetime) (s : state) :
  let tipo := optionmenu_label_type gui in
  let osi := entrada_osi gui in
  if intake_tipo tipo && negb (Py.len osi =? 6)%Z then
    button_print_callback gui now s = (Val tt, s)
  else if barcode_tipo tipo && negb (barcode_ok osi) then
    button_print_callback gui now s = (Raise BarcodeCodeError, s)
  else
    exists buf : buffer,
      button_print_callback gui now s = (Val tt, mkState (output s) (sink s ++ [buf])).
Proof.
  intros tipo osi. unfold barcode_tipo.
  destruct (known_tipo tipo) eqn:Hk.
  - destruct (known_tipo_layout _ Hk) as [l Hl]. fold tipo in Hl.
    destruct (Z.eqb_spec (Py.len osi) 6) as [H6 | H6]; cbn [negb].
    + rewrite andb_false_r.
      assert (Hv : validated l gui) by (destruct l; cbn [validated]; auto).
      destruct (barcode_ok osi) eqn:Hok; cbn [negb].
      * rewrite andb_false_r. exists (label_buffer l gui now).
        apply button_print_callback_run; [exact Hl | exact Hv |].
        destruct l; cbn [encodable]; auto.
      * rewrite andb_true_r.
        destruct l; rewrite Hl; cbn [tipo_of intake_tipo String.eqb Ascii.eqb
                                     Bool.eqb andb orb];
          try (apply (button_print_callback_raises _ gui now s Hl Hv);
               [discriminate | exact Hok]).
        exists (label_buffer Libre gui now).
        apply button_print_callback_run; [exact Hl | exact I | exact I].
    + rewrite andb_true_r.
      destruct (intake_tipo tipo) eqn:Hi.
      * apply button_print_callback_abort; assumption.
      * cbn [orb].
        assert (Hv : validated l gui).
        { rewrite Hl in Hi. destruct l; cbn [validated]; auto; discriminate Hi. }
        destruct (barcode_ok osi) eqn:Hok; cbn [negb].
        -- rewrite andb_false_r. exists (label_buffer l gui now).
           apply button_print_callback_run; [exact Hl | exact Hv |].
           destruct l; cbn [encodable]; auto.
        -- rewrite andb_true_r.
           destruct l; rewrite Hl in *;
             cbn [tipo_of String.eqb Ascii.eqb Bool.eqb andb] in *;
             try discriminate Hi.
           ++ apply (button_print_callback_raises SalidaParte gui now s Hl Hv);
                [discriminate | exact Hok].
           ++ exists (label_buffer Libre gui now).
              apply button_print_callback_run; [exact Hl | exact I | exact I].
  - assert (Hi : intake_tipo tipo = false /\ String.eqb tipo "Salida Parte" = false).
    { unfold known_tipo, intake_tipo in *.
      apply orb_false_iff in Hk as [Hk _].
      apply orb_false_iff in Hk as [Hk H3]. split; assumption. }
    destruct Hi as [Hi H3]. rewrite Hi, H3. cbn [andb orb].
    exists (blank_buffer (optionmenu_gap_size gui)).
    apply button_print_callback_blank. exact Hk.
Qed.

(** X13: with a label type the print button has no layout for ("Excel" is
    one the menu offers), it still configures, aligns and cuts: it
    transmits the nine configuration commands, the alignment feed and the
    cut, with no text, no barcode and no cut feed. *)
Theorem button_print_callback_unknown (gui : Gui) (now : datetime) (s : state) :
  known_tipo (optionmenu_label_type gui) = false ->
  button_print_callback gui now s =
    (Val tt,
     mkState (output s)
       (sink s ++ [config_chunks
                   ++ bwd (align_distance (optionmenu_gap_size gui))
                   ++ [Raw [x1b; x69]]])) /\
  label_content (blank_buffer (optionmenu_gap_size gui)) = [] /\
  count_feed_forward (blank_buffer (optionmenu_gap_size gui))
  = count_feed_forward (bwd (align_distance (optionmenu_gap_size gui))).
Proof.
  intro Hk. split; [apply button_print_callback_blank; exact Hk|].
  unfold blank_buffer, label_content, count_feed_forward. split.
  - unfold bwd. rewrite !filter_app, (filter_feed _ _ _ _ raw_not_content).
    reflexivity.
  - rewrite !filter_app, !length_app. cbn. lia.
Qed.

Lemma button_print_callback_unknown_witness :
  known_tipo (optionmenu_label_type gui_excel) = false /\
  button_print_callback gui_excel hoy_14 inicio =
    (Val tt,
     mkState []
       ([] ++ [config_chunks ++ bwd (align_distance 5) ++ [Raw [x1b; x69]]])).
Proof.
  split; [reflexivity|].
  exact (proj1 (button_print_callback_unknown gui_excel hoy_14 inicio eq_refl)).
Defined.

Lemma feed_chunks_raw3 (op : byte) (d : Q) : forallb is_raw3 (feed_chunks op d) = true.
Proof.
  unfold feed_chunks. rewrite forallb_app. apply andb_true_iff. split; [|reflexivity].
  induction (Z.to_nat (Qfloor (d / 31.875))) as [|n IH]; [reflexivity | exact IH].
Qed.

Lemma raw3_not_cut (c : chunk) : is_raw3 c = true -> is_cut c = false.
Proof.
  destruct c as [msg | |]; try reflexivity.
  destruct msg as [|a [|b [|c [|e msg]]]]; try reflexivity; discriminate.
Qed.

Lemma filter_cut_feed (f b : byte) (d : Q) : filter is_cut (signed_feed f b d) = [].
Proof.
  apply (filter_none is_cut is_raw3); [|exact raw3_not_cut].
  unfold signed_feed. destruct (Py.lt d 0); apply feed_chunks_raw3.
Qed.

Lemma filter_cut_libre (sep : Q) (lineas : list string) :
  filter is_cut (flat_map (fun linea => libre_text linea :: fwd sep) lineas) = [].
Proof.
  induction lineas as [|linea lineas IH]; [reflexivity|].
  cbn [flat_map]. rewrite filter_app, IH, app_nil_r.
  cbn [filter]. unfold fwd. rewrite filter_cut_feed.
  unfold libre_text. destruct (Py.len linea >? 0)%Z; reflexivity.
Qed.

(** X14: the label the print button transmits, when the identifier check
    passes and the identifier makes a barcode, opens with the reset
    command, closes with the cut, and holds no other cut. *)
Theorem label_reset_first_cut_last (l : layout) (gui : Gui) (now : datetime) (s : state) :
  optionmenu_label_type gui = tipo_of l ->
  validated l gui ->
  encodable l gui ->
  exists buf mid : buffer,
    button_print_callback gui now s = (Val tt, mkState (output s) (sink s ++ [buf])) /\
    buf = Raw [x1b; x40] :: mid ++ [Raw [x1b; x69]] /\
    count_cut buf = 1%nat.
Proof.
  intros Ht Hv He.
  exists (label_buffer l gui now). eexists.
  split; [apply (button_print_callback_run l); assumption|].
  split.
  - unfold label_buffer, config_chunks. cbv zeta.
    cbn [app]. f_equal. rewrite !app_comm_cons, !app_assoc. reflexivity.
  - unfold count_cut, label_buffer. cbv zeta.
    unfold fwd, bwd. rewrite !filter_app, !filter_cut_feed.
    assert (Hc : filter is_cut (chunks_of l gui now) = []).
    { destruct l; unfold chunks_of, salida_chunks, fwd; cbv zeta;
        rewrite ?filter_app, ?filter_cut_feed, ?filter_cut_libre; reflexivity. }
    rewrite Hc. reflexivity.
Qed.

Lemma label_reset_first_cut_last_witness :
  optionmenu_label_type gui_equipo = tipo_of IngresoEquipo /\
  validated IngresoEquipo gui_equipo /\
  encodable IngresoEquipo gui_equipo /\
  exists buf mid : buffer,
    button_print_callback gui_equipo hoy_14 inicio = (Val tt, mkState [] ([] ++ [buf])) /\
    buf = Raw [x1b; x40] :: mid ++ [Raw [x1b; x69]] /\
    count_cut buf = 1%nat.
Proof.
  split; [reflexivity|]. split; [reflexivity|]. split; [reflexivity|].
  exact (label_reset_first_cut_last IngresoEquipo gui_equipo hoy_14 inicio
           eq_refl eq_refl eq_refl).
Defined.

Lemma length_prefix (n : nat) (s : string) : (String.length (Py.prefix n s) <= n)%nat.
Proof.
  unfold Py.prefix. revert s. induction n as [|n IH]; intro s.
  - destruct s; cbn; lia.
  - destruct s as [|c s]; cbn; [lia|]. specialize (IH s). lia.
Qed.

Lemma length_append (a b : string) :
  String.length (a ++ b) = (String.length a + String.length b)%nat.
Proof.
  induction a as [|c a IH]; cbn; [reflexivity | now rewrite IH].
Qed.

Lemma label_content_libre (sep : Q) (lineas : list string) :
  label_content (flat_map (fun linea => libre_text linea :: fwd sep) lineas)
  = map libre_text lineas.
Proof.
  unfold label_content.
  induction lineas as [|linea lineas IH]; [reflexivity|].
  cbn [flat_map map]. rewrite filter_app, IH.
  cbn [filter]. unfold fwd. rewrite (filter_feed _ _ _ _ raw_not_content).
  unfold libre_text. destruct (Py.len linea >? 0)%Z; reflexivity.
Qed.

(** X15: "Libre" prints its five fields in order, one text per field, each
    cut to its first 20 characters and ended by a line feed, an empty
    field printed as a single space: every text is 2 to 21 characters
    long. *)
Theorem libre_lines_truncated (gui : Gui) (now : datetime) (s : state) :
  optionmenu_label_type gui = "Libre"%string ->
  let linea campo :=
    let l := Py.prefix 20 campo in
    Text ((if (Py.len l >? 0)%Z then l else " ") ++ LF) in
  exists buf : buffer,
    button_print_callback gui now s = (Val tt, mkState (output s) (sink s ++ [buf])) /\
    label_content buf =
      map linea [entrada_osi gui; entrada_claim gui; entrada_fru gui;
                 entrada_4ta_linea gui; entrada_5ta_linea gui] /\
    Forall (fun c => exists t : string,
                c = Text t /\ (2 <= String.length t <= 21)%nat)
           (label_content buf).
Proof.
  intros Ht linea.
  exists (label_buffer Libre gui now).
  split; [apply (button_print_callback_run Libre); [exact Ht | exact I | exact I]|].
  assert (Hc : label_content (label_buffer Libre gui now)
               = map libre_text (libre_lineas gui)).
  { unfold label_buffer. cbv zeta. cbn [chunks_of].
    unfold label_content at 1. unfold fwd at 2. unfold bwd.
    rewrite !filter_app, !(filter_feed _ _ _ _ raw_not_content).
    fold (label_content (flat_map
            (fun linea => libre_text linea :: fwd (sep5 (optionmenu_label_size gui)))
            (libre_lineas gui))).
    rewrite label_content_libre. cbn [filter config_chunks is_raw negb app].
    now rewrite app_nil_r. }
  assert (Hl : forall campo, libre_text (Py.prefix 20 campo) = linea campo).
  { intro campo. unfold libre_text, linea. cbv zeta.
    destruct (Py.len (Py.prefix 20 campo) >? 0)%Z; reflexivity. }
  rewrite Hc. unfold libre_lineas. cbn [map]. rewrite !Hl.
  split; [reflexivity|].
  repeat constructor;
    match goal with
    | |- exists t, linea ?campo = Text t /\ _ =>
        unfold linea; cbv zeta; eexists; split; [reflexivity|];
        rewrite length_append; change (String.length LF) with 1%nat;
        pose proof (length_prefix 20 campo) as Hp;
        unfold Py.len;
        destruct (Z.gtb_spec (Z.of_nat (String.length (Py.prefix 20 campo))) 0);
        [lia | cbn; lia]
    end.
Qed.

Lemma libre_lines_truncated_witness :
  optionmenu_label_type gui_libre = "Libre"%string /\
  exists buf : buffer,
    button_print_callback gui_libre hoy_14 inicio = (Val tt, mkState [] ([] ++ [buf])) /\
    Forall (fun c => exists t : string,
                c = Text t /\ (2 <= String.length t <= 21)%nat)
           (label_content buf).
Proof.
  split; [reflexivity|].
  destruct (libre_lines_truncated gui_libre hoy_14 inicio eq_refl)
    as [buf [H1 [_ H3]]].
  exists buf. split; assumption.
Defined.

(** X16: "Salida Parte" has no length check: an identifier of any length
    that makes a barcode (one CODE39 character or more) gives one label,
    whose content is the date line, the FRU and claim lines (each value cut
    to its first 14 characters), the identifier line, and one CODE39
    barcode of the identifier between stars, width 4, height 48.  An
    identifier that makes no barcode (empty, lowercase, ...) raises
    BarcodeCodeError and nothing is transmitted. *)
Theorem salida_parte_content (gui : Gui) (now : datetime) (s : state) :
  optionmenu_label_type gui = "Salida Parte"%string ->
  let osi := entrada_osi gui in
  if barcode_ok osi then
    exists buf : buffer,
      button_print_callback gui now s = (Val tt, mkState (output s) (sink s ++ [buf])) /\
      label_content buf =
        [Text ("           " ++ strftime_dmY now ++ LF);
         Text (" FRU:   " ++ Py.prefix 14 (entrada_fru gui) ++ LF);
         Text (" CLAIM: " ++ Py.prefix 14 (entrada_claim gui) ++ LF);
         Text (" OSI:   " ++ osi ++ LF);
         Barcode ("*" ++ osi ++ "*") "CODE39" 48 4 "OFF" false]
  else
    button_print_callback gui now s = (Raise BarcodeCodeError, s).
Proof.
  intros Ht osi. destruct (barcode_ok osi) eqn:Hok.
  - exists (label_buffer SalidaParte gui now).
    split; [apply (button_print_callback_run SalidaParte);
            [exact Ht | exact I | exact Hok]|].
    unfold label_content, label_buffer, chunks_of, salida_chunks, fwd, bwd.
    rewrite ?filter_app, ?(filter_feed _ _ _ _ raw_not_content). reflexivity.
  - apply (button_print_callback_raises SalidaParte gui now s Ht I);
      [discriminate | exact Hok].
Qed.

Lemma salida_parte_content_witness :
  optionmenu_label_type gui_salida = "Salida Parte"%string /\
  exists buf : buffer,
    button_print_callback gui_salida hoy_14 inicio = (Val tt, mkState [] ([] ++ [buf])) /\
    label_content buf =
      [Text ("           " ++ strftime_dmY hoy_14 ++ LF);
       Text (" FRU:   " ++ Py.prefix 14 "FRU1" ++ LF);
       Text (" CLAIM: " ++ Py.prefix 14 "CLAIM1" ++ LF);
       Text (" OSI:   " ++ "123456" ++ LF);
       Barcode ("*" ++ "123456" ++ "*") "CODE39" 48 4 "OFF" false].
Proof.
  split; [reflexivity|].
  exact (salida_parte_content gui_salida hoy_14 inicio eq_refl).
Defined.

(** X17: an "Ingreso Golden Unit" job with a 6-character identifier made
    of CODE39 characters transmits one label of three blocks with the
    spacing feed between them: text and barcode, feed, text and barcode,
    feed, text, then the cut feed (with AJUSTE) and the cut.  Each text
    shows the identifier after "GU" and again after an underscore, each
    barcode is CODE39 of the identifier between stars, height 48, at the
    library's default width. *)
Theorem ingreso_golden_unit_content (gui : Gui) (now : datetime) (s : state) :
  optionmenu_label_type gui = "Ingreso Golden Unit"%string ->
  Py.len (entrada_osi gui) = 6%Z ->
  barcode_ok (entrada_osi gui) = true ->
  let osi := entrada_osi gui in
  let alto := optionmenu_label_size gui in
  let gap := optionmenu_gap_size gui in
  let T := Text ("  GU " ++ osi ++ TAB ++ "   _" ++ osi) in
  let B := Barcode ("*" ++ osi ++ "*") "CODE39" 48 3 "OFF" false in
  let sep := separacion alto MARGIN 5 3 in
  let hp0 := MARGIN + inject_Z gap / 2 + 6 + 6 + sep + 6 + 6 + sep + 6 in
  let d := inject_Z alto + inject_Z gap - hp0 + CUTTER_OFFSET + AJUSTE in
  exists buf : buffer,
    button_print_callback gui now s = (Val tt, mkState (output s) (sink s ++ [buf])) /\
    buf = config_chunks ++ bwd (align_distance gap)
          ++ [T; B] ++ fwd sep ++ [T; B] ++ fwd sep ++ [T]
          ++ fwd d ++ [Raw [x1b; x69]].
Proof.
  intros Ht Hv Hok osi alto gap T B sep hp0 d.
  exists (label_buffer IngresoGoldenUnit gui now).
  split; [apply (button_print_callback_run IngresoGoldenUnit); assumption|].
  unfold label_buffer, chunks_of. cbv zeta.
  rewrite <- !app_assoc. reflexivity.
Qed.

Lemma ingreso_golden_unit_content_witness :
  optionmenu_label_type
    (mkGui "Ingreso Golden Unit" 40 4 "GU0001" "" "" "" "")
  = "Ingreso Golden Unit"%string /\
  Py.len "GU0001" = 6%Z /\
  barcode_ok "GU0001" = true /\
  exists buf : buffer,
    button_print_callback (mkGui "Ingreso Golden Unit" 40 4 "GU0001" "" "" "" "")
      hoy_14 inicio = (Val tt, mkState [] ([] ++ [buf])).
Proof.
  split; [reflexivity|]. split; [reflexivity|]. split; [reflexivity|].
  destruct (ingreso_golden_unit_content
              (mkGui "Ingreso Golden Unit" 40 4 "GU0001" "" "" "" "")
              hoy_14 inicio eq_refl eq_refl eq_refl) as [buf [H1 _]].
  exists buf. exact H1.
Defined.

(** * Further properties of the batch *)

Lemma row_ok_cells (value : list string) :
  row_ok value = true ->
  exists (osi claim fru : string) (rest : list string),
    value = osi :: claim :: fru :: rest.
Proof.
  unfold row_ok. intro H.
  destruct value as [|c0 [|c1 [|c2 rest]]]; try discriminate H.
  now exists c0, c1, c2, rest.
Qed.

Lemma row_prints_cells (value : list string) :
  row_prints value = true ->
  exists (osi claim fru : string) (rest : list string),
    value = osi :: claim :: fru :: rest /\ barcode_ok osi = true.
Proof.
  unfold row_prints. intro H. apply andb_true_iff in H as [H1 H2].
  destruct (row_ok_cells value H1) as [osi [claim [fru [rest Hv]]]].
  subst value. now exists osi, claim, fru, rest.
Qed.

Lemma print_excel_row_short (alto gap : Z) (now : datetime)
    (value : list string) (i : Z) (hp : Q) (s : state) :
  row_ok value = false ->
  print_excel_row alto gap now value i hp s = (Raise IndexError, s).
Proof.
  unfold row_ok. intro H.
  destruct value as [|c0 [|c1 [|c2 rest]]]; try discriminate H; reflexivity.
Qed.

(** A row whose identifier makes no barcode: the nudge of a fifth row is
    transmitted, the row's lines enter the buffer, the barcode raises. *)
Lemma print_excel_row_bad_code (alto gap : Z) (now : datetime)
    (osi claim fru : string) (rest : list string) (i : Z) (hp : Q) (s : state) :
  barcode_ok osi = false ->
  exists extra : buffer,
    print_excel_row alto gap now (osi :: claim :: fru :: rest) i hp s
    = (Raise BarcodeCodeError,
       mkState (output s ++ extra) (sink (nudged i s))).
Proof.
  intro Hbad. unfold print_excel_row. cbn [row_get nth_error].
  eexists.
  eapply bind_run; [apply ret_run|].
  eapply bind_run; [apply ret_run|].
  eapply bind_run; [apply ret_run|].
  eapply bind_run; [apply nudge_run|].
  apply bind_raise. unfold salida_parte_blocks. cbv zeta.
  repeat (eapply bind_run; [solve [auto with runs] | cbv beta zeta]).
  apply bind_raise. rewrite (barcode_raises _ _ _ Hbad).
  rewrite ?emit_emit. unfold emit.
  assert (Ho : output (nudged i s) = output s)
    by (unfold nudged; destruct (i mod 5 =? 0)%Z; reflexivity).
  rewrite Ho. reflexivity.
Qed.

Lemma fifth_row (i : Z) :
  ((i + 1) / 5 - i / 5 = if (i + 1) mod 5 =? 0 then 1 else 0)%Z.
Proof.
  destruct (Z.eqb_spec ((i + 1) mod 5) 0);
    Z.to_euclidean_division_equations; lia.
Qed.

Lemma sink_nudged (i : Z) (s : state) :
  sink (nudged i s) = sink s ++ (if (i mod 5 =? 0)%Z then [fwd 0.5] else []).
Proof.
  unfold nudged. destruct (i mod 5 =? 0)%Z; cbn [sink];
    [reflexivity | now rewrite app_nil_r].
Qed.

(** The loop over a run of rows that print: it reaches the rest of the
    table having transmitted one buffer per row and one nudge per fifth
    row, the printer's buffer only ever growing. *)
Lemma print_excel_loop_good (alto gap : Z) (now : datetime)
    (good : list (list string)) :
  forallb row_prints good = true ->
  forall (rest : list (list string)) (i : Z) (hp : Q) (s : state),
  exists (hp' : Q) (extra : buffer) (bufs : list buffer),
    print_excel_loop alto gap now (good ++ rest) i hp s
    = print_excel_loop alto gap now rest (i + Z.of_nat (List.length good)) hp'
        (mkState (output s ++ extra) (sink s ++ bufs)) /\
    Z.of_nat (List.length bufs)
    = (Z.of_nat (List.length good)
       + ((i + Z.of_nat (List.length good)) / 5 - i / 5))%Z.
Proof.
  induction good as [|value good IH]; intros Hok rest i hp s.
  - exists hp, [], []. cbn [app List.length Z.of_nat].
    rewrite Z.add_0_r, !app_nil_r. split; [destruct s; reflexivity | lia].
  - cbn [forallb] in Hok. apply andb_true_iff in Hok as [Hv Hok].
    destruct (row_prints_cells value Hv) as [osi [claim [fru [cells [Hvalue Hosi]]]]].
    subst value.
    cbn [app print_excel_loop]. cbv zeta.
    unfold bind at 1. rewrite print_excel_row_run by exact Hosi. cbv zeta.
    match goal with
    | |- context [print_excel_loop _ _ _ (good ++ rest) _ ?h ?st] =>
        destruct (IH Hok rest (i + 1)%Z h st) as [hp' [extra [bufs [Hrun Hlen]]]]
    end.
    rewrite Hrun. cbn [output sink]. rewrite sink_nudged.
    exists hp'. eexists. eexists. split.
    + rewrite <- !app_assoc.
      replace (i + 1 + Z.of_nat (List.length good))%Z
        with (i + Z.of_nat (List.length ((osi :: claim :: fru :: cells) :: good)))%Z
        by (cbn [List.length]; lia).
      reflexivity.
    + pose proof (fifth_row i) as H5.
      cbn [List.length]. rewrite Nat2Z.inj_succ.
      replace (i + Z.succ (Z.of_nat (List.length good)))%Z
        with (i + 1 + Z.of_nat (List.length good))%Z by lia.
      destruct ((i + 1) mod 5 =? 0)%Z;
        rewrite ?length_app; cbn [List.length app]; lia.
Qed.

(** X18: on a table whose rows all have at least three cells and an
    identifier that makes a barcode (the empty table included)
    [print_excel] does not raise, leaves no printer state behind, and
    transmits one buffer per row plus one 0.5 mm nudge for every fifth
    row: n + n / 5 buffers for n rows, none for no rows. *)
Theorem print_excel_transmissions (gui : Gui) (now : datetime)
    (df_values : list (list string)) (s : state) :
  forallb row_prints df_values = true ->
  let n := Z.of_nat (List.length df_values) in
  exists bufs : list buffer,
    print_excel gui now df_values s = (Val tt, mkState (output s) (sink s ++ bufs)) /\
    Z.of_nat (List.length bufs) = (n + n / 5)%Z.
Proof.
  intros Hok n.
  unfold print_excel, def, with_new_printer. cbv zeta.
  rewrite bind_prologue. unfold bind at 1.
  match goal with
  | |- context [print_excel_loop ?a ?g _ _ _ ?h ?st] =>
      destruct (print_excel_loop_good a g now df_values Hok [] 0%Z h st)
        as [hp' [extra [bufs [Hrun Hlen]]]]
  end.
  rewrite app_nil_r in Hrun. rewrite Hrun.
  exists bufs. cbn [print_excel_loop ret emit output sink bind clear close].
  split; [reflexivity|].
  rewrite Hlen. fold n. change (0 / 5)%Z with 0%Z. rewrite Z.add_0_l. lia.
Qed.

Lemma print_excel_transmissions_witness :
  forallb row_prints [fila_1; fila_2] = true /\
  exists bufs : list buffer,
    print_excel gui_excel hoy_14 [fila_1; fila_2] inicio
    = (Val tt, mkState [] ([] ++ bufs)) /\
    Z.of_nat (List.length bufs) = (2 + 2 / 5)%Z.
Proof.
  split; [reflexivity|].
  exact (print_excel_transmissions gui_excel hoy_14 [fila_1; fila_2] inicio eq_refl).
Defined.

(** X19: a table with fewer than three columns (its first row has fewer
    than three cells) makes [print_excel] raise IndexError at the first
    row, after the configuration and the alignment feed entered the
    buffer: nothing is transmitted and no printer state is left behind. *)
Theorem print_excel_short_row (gui : Gui) (now : datetime)
    (value : list string) (rest : list (list string)) (s : state) :
  row_ok value = false ->
  print_excel gui now (value :: rest) s = (Raise IndexError, s).
Proof.
  intro Hbad.
  unfold print_excel, def, with_new_printer. cbv zeta.
  rewrite bind_prologue. unfold bind at 1.
  cbn [print_excel_loop]. cbv zeta.
  unfold bind at 1. rewrite (print_excel_row_short _ _ _ _ _ _ _ Hbad).
  cbn [emit output sink]. destruct s; reflexivity.
Qed.

Lemma print_excel_short_row_witness :
  row_ok ["111111"; "C1"]%string = false /\
  print_excel gui_excel hoy_14
    [["111111"; "C1"]%string; ["222222"; "C2"]%string] inicio
  = (Raise IndexError, inicio).
Proof.
  split; [reflexivity|].
  exact (print_excel_short_row gui_excel hoy_14 ["111111"; "C1"]%string
           [["222222"; "C2"]%string] inicio eq_refl).
Defined.

(** X20: a row of the batch whose identifier makes a barcode never clears
    the printer's buffer: it appends its own commands, one cut among them,
    to what the earlier rows left, and transmits the whole buffer; the
    buffer it transmits is the printer's buffer after the row. *)
Theorem print_excel_row_accumulates (alto gap : Z) (now : datetime)
    (value : list string) (i : Z) (hp : Q) (s : state) :
  row_prints value = true ->
  exists (hp' : Q) (s' : state) (extra : buffer),
    print_excel_row alto gap now value i hp s = (Val hp', s') /\
    output s' = output s ++ extra /\
    extra <> [] /\
    count_cut extra = 1%nat /\
    last (sink s') [] = output s'.
Proof.
  intro Hv.
  destruct (row_prints_cells value Hv) as [osi [claim [fru [cells [Hvalue Hosi]]]]].
  subst value.
  eexists. eexists. eexists.
  split; [apply print_excel_row_run; exact Hosi|].
  cbn [output sink].
  split; [reflexivity|]. split; [|split].
  - unfold salida_chunks. cbn [app]. discriminate.
  - unfold count_cut, salida_chunks, fwd.
    rewrite !filter_app, !filter_cut_feed. reflexivity.
  - apply last_last.
Qed.

Lemma print_excel_row_accumulates_witness :
  row_prints fila_2 = true /\
  exists (hp' : Q) (s' : state) (extra : buffer),
    print_excel_row 50 5 hoy_14 fila_2 2 (129 # 2)
      (mkState config_chunks [config_chunks]) = (Val hp', s') /\
    output s' = config_chunks ++ extra /\
    extra <> [] /\
    count_cut extra = 1%nat /\
    last (sink s') [] = output s'.
Proof.
  split; [reflexivity|].
  exact (print_excel_row_accumulates 50 5 hoy_14 fila_2 2 (129 # 2)
           (mkState config_chunks [config_chunks]) eq_refl).
Defined.

(** X22: a row whose identifier makes no barcode (a lowercase value, or
    "nan" from a blank cell) makes [print_excel] raise BarcodeCodeError
    when the loop reaches it.  The k rows before it have been transmitted
    by then, with their nudges and the nudge of this row if it is a fifth
    one (k + (k + 1) / 5 buffers); no label is transmitted for this row or
    the rows after it, and no printer state is left behind. *)
Theorem print_excel_bad_code (gui : Gui) (now : datetime)
    (good : list (list string)) (osi claim fru : string) (cells : list string)
    (rest : list (list string)) (s : state) :
  forallb row_prints good = true ->
  barcode_ok osi = false ->
  let k := Z.of_nat (List.length good) in
  exists bufs : list buffer,
    print_excel gui now (good ++ (osi :: claim :: fru :: cells) :: rest) s
    = (Raise BarcodeCodeError, mkState (output s) (sink s ++ bufs)) /\
    Z.of_nat (List.length bufs) = (k + (k + 1) / 5)%Z.
Proof.
  intros Hok Hbad k.
  unfold print_excel, def, with_new_printer. cbv zeta.
  rewrite bind_prologue. unfold bind at 1.
  match goal with
  | |- context [print_excel_loop ?a ?g _ _ _ ?h ?st] =>
      destruct (print_excel_loop_good a g now good Hok
                  ((osi :: claim :: fru :: cells) :: rest) 0%Z h st)
        as [hp' [extra [bufs [Hrun Hlen]]]]
  end.
  rewrite Hrun. cbn [print_excel_loop]. cbv zeta.
  unfold bind at 1.
  match goal with
  | |- context [print_excel_row ?a ?g now _ ?i ?h ?st] =>
      destruct (print_excel_row_bad_code a g now osi claim fru cells i h st Hbad)
        as [extra' Hrow]
  end.
  rewrite Hrow, sink_nudged. cbn [emit output sink].
  rewrite <- app_assoc. eexists. split; [reflexivity|].
  pose proof (fifth_row k) as H5. fold k in Hlen.
  change (0 / 5)%Z with 0%Z in Hlen. rewrite Z.sub_0_r, Z.add_0_l in Hlen.
  rewrite Z.add_0_l. fold k.
  destruct ((k + 1) mod 5 =? 0)%Z;
    rewrite ?length_app; cbn [List.length]; lia.
Qed.

Lemma print_excel_bad_code_witness :
  forallb row_prints [fila_1] = true /\
  barcode_ok "nan" = false /\
  exists bufs : list buffer,
    print_excel gui_excel hoy_14
      ([fila_1] ++ ["nan"; "C2"; "F2"]%string :: [fila_2]) inicio
    = (Raise BarcodeCodeError, mkState [] ([] ++ bufs)) /\
    Z.of_nat (List.length bufs) = (1 + (1 + 1) / 5)%Z.
Proof.
  split; [reflexivity|]. split; [reflexivity|].
  exact (print_excel_bad_code gui_excel hoy_14 [fila_1] "nan" "C2" "F2" []
           [fila_2] inicio eq_refl eq_refl).
Defined.

(** * The two feed buttons *)

(** X21: the forward and backward buttons each transmit a buffer of their
    own holding one feed command of 4 steps (0.5 mm), forward or backward,
    and leave the caller's printer buffer as it was; neither resets or
    configures the printer. *)
Theorem feed_buttons (s : state) :
  button_forward_callback s =
    (Val tt, mkState (output s) (sink s ++ [[Raw [x1b; x4a; x04]]])) /\
  button_backward_callback s =
    (Val tt, mkState (output s) (sink s ++ [[Raw [x1b; x42; x04]]])).
Proof.
  split.
  - rewrite button_forward_callback_run. reflexivity.
  - unfold button_backward_callback, def, with_new_printer.
    erewrite bind_run; [ | apply feed_bwd_run | run; reflexivity ].
    reflexivity.
Qed.
